(** * Card-transaction platform: approval logic, webhook handler, statements

    A shallow embedding of the TypeScript sources

      - [types]                         (entities and payload shapes)
      - [db/index.ts]                   (the in-memory store)
      - [services/approvalLogic]        ([deny], [processTransaction])
      - [services/webhookHandler.ts]    ([handleTransactionWebhook])
      - [services/statementGenerator]   ([generateStatementForAccount],
                                         [calculateMinimumPayment])
      - [utils/helpers.ts]              ([validateWebhookPayload])
      - [server.ts]                     (the POST /webhooks/transactions route)

    Conventions.

    - A JavaScript number is a binary64 value.  Monetary amounts are integer
      minor units (cents), and the model holds a number that is an integer as
      that integer, in [Z].  The comparisons of the source are exact on
      doubles; its [+] is the exact sum rounded to nearest even
      ([Float64.add]), which is the exact sum as long as that sum has at most
      53 significant bits, and its [balance * 0.02] is [Float64.mul_0_02].
      Numbers that are not integers (fractions, NaN, the infinities) have no
      value in the model: every statement below is about stores and payloads
      whose numbers are integers, below [2^1024] in magnitude.
    - A [Date] is its [getTime()] value.  Every [new Date()] executed by a
      function is a parameter of its model.
    - The three [Map]s of the store are finite maps keyed by strings; the
      statements array is a list in insertion order.  A [Map] lists its
      values in the order in which its keys were first inserted, which a
      finite map does not keep: a function that lists a [Map] takes that
      order as the argument [order] ([Map_values]), and the statements about
      it hold for every list that has each key of the map once.
    - An [async] function is first modelled as the function it computes when
      nothing else runs between its [await]s (state passing); module
      [Interleaving] then splits the webhook handler at its [await]s. *)

From Stdlib Require Import ZArith Lia Bool.
From stdpp Require Import gmap strings list fin_maps.

Local Open Scope string_scope.
Local Open Scope Z_scope.

(* ===================================================================== *)
(** * Entities ([types]) *)
(* ===================================================================== *)

Definition Date : Type := Z.

Inductive AccountStatus : Type :=
| account_active
| account_frozen
| account_closed.

Inductive CardStatus : Type :=
| card_active
| card_frozen
| card_cancelled.

Inductive TransactionStatus : Type :=
| approved
| denied.

Inductive DenialReason : Type :=
| card_not_found
| card_not_active
| account_not_found
| account_not_active
| insufficient_credit
| exceeds_card_limit.

Module Account.
Record t : Type := mk {
  id : string;
  creditLimit : Z;
  currentBalance : Z;
  status : AccountStatus;
  createdAt : Date;
  updatedAt : Date
}.
End Account.

Module Card.
Record t : Type := mk {
  id : string;
  accountId : string;
  status : CardStatus;
  spendingLimit : option Z;
  createdAt : Date;
  updatedAt : Date
}.
End Card.

Module MerchantAddress.
Record t : Type := mk {
  line1 : string;
  line2 : option string;
  city : string;
  state : string;
  country : string
}.
End MerchantAddress.

Module Transaction.
Record t : Type := mk {
  id : string;
  cardId : string;
  accountId : string;
  amount : Z;
  currency : string;
  merchantCategory : Z;
  merchantAddress : MerchantAddress.t;
  status : TransactionStatus;
  denialReason : option DenialReason;
  createdAt : Date
}.
End Transaction.

Module Statement.
Record t : Type := mk {
  id : string;
  accountId : string;
  periodStart : Date;
  periodEnd : Date;
  openingBalance : Z;
  closingBalance : Z;
  totalSpent : Z;
  minimumPayment : Z;
  dueDate : Date;
  createdAt : Date
}.
End Statement.

(** The webhook payload; [merchant_data.address] uses the wire names. *)
Module PayloadAddress.
Record t : Type := mk {
  line_1 : string;
  line_2 : option string;
  city : string;
  state : string;
  country : string
}.
End PayloadAddress.

Module MerchantData.
Record t : Type := mk {
  category : Z;
  address : PayloadAddress.t
}.
End MerchantData.

Module Payload.
Record t : Type := mk {
  id : string;
  card_id : string;
  amount : Z;
  currency : string;
  merchant_data : MerchantData.t
}.
End Payload.

Module WebhookResponse.
Record t : Type := mk { approved : bool }.
End WebhookResponse.

Module ApprovalResult.
Record t : Type := mk {
  approved : bool;
  reason : option DenialReason;
  card : option Card.t;
  account : option Account.t
}.
End ApprovalResult.

(** [x === 'active'] and [x === 'approved'] on the status enumerations. *)
Definition card_is_active (s : CardStatus) : bool :=
  match s with card_active => true | _ => false end.

Definition account_is_active (s : AccountStatus) : bool :=
  match s with account_active => true | _ => false end.

Definition is_approved (s : TransactionStatus) : bool :=
  match s with approved => true | denied => false end.

Definition TransactionStatus_eqb (s1 s2 : TransactionStatus) : bool :=
  match s1, s2 with
  | approved, approved | denied, denied => true
  | _, _ => false
  end.

(* ===================================================================== *)
(** * binary64 arithmetic on integer-valued numbers *)
(* ===================================================================== *)

Module Float64.

(** The quotient of the multiple of [2^s] nearest to [n >= 0]; a tie goes
    to the even quotient. *)
Definition nearest_even (n s : Z) : Z :=
  let q := n / 2 ^ s in
  let r := n mod 2 ^ s in
  if 2 * r <? 2 ^ s then q
  else if 2 ^ s <? 2 * r then q + 1
  else if Z.even q then q
  else q + 1.

(** [n >= 0] rounded to 53 significant bits. *)
Definition round53 (n : Z) : Z :=
  let s := Z.max 0 (Z.log2 n - 52) in
  nearest_even n s * 2 ^ s.

(** An integer that a binary64 number holds exactly. *)
Definition representable (b : Z) : Prop := round53 (Z.abs b) = Z.abs b.

(** The double nearest to the integer [z]; rounding to nearest even is
    symmetric in the sign. *)
Definition round (z : Z) : Z := Z.sgn z * round53 (Z.abs z).

(** [a + b] on integer-valued doubles: the exact sum, rounded. *)
Definition add (a b : Z) : Z := round (a + b).

(** The literal [0.02] is the double [lit_0_02 * 2^-58]. *)
Definition lit_0_02 : Z := 5764607523034235.
Definition lit_scale : Z := 58.

(** [b * 0.02] for a positive integer-valued double [b], in units of
    [2^-58]: the exact product rounded to nearest even. *)
Definition mul_0_02 (b : Z) : Z := round53 (b * lit_0_02).

(** [Math.ceil] of a double given in units of [2^-58]. *)
Definition ceil (v : Z) : Z := - ((- v) / 2 ^ lit_scale).

End Float64.

(* ===================================================================== *)
(** * The in-memory store ([db/index.ts]) *)
(* ===================================================================== *)

Record Store : Type := mkStore {
  accounts : gmap string Account.t;
  cards : gmap string Card.t;
  transactions : gmap string Transaction.t;
  statements : list Statement.t
}.

Definition set_accounts (db : Store) (m : gmap string Account.t) : Store :=
  mkStore m (cards db) (transactions db) (statements db).

Definition set_transactions (db : Store) (m : gmap string Transaction.t) : Store :=
  mkStore (accounts db) (cards db) m (statements db).

Definition set_statements (db : Store) (l : list Statement.t) : Store :=
  mkStore (accounts db) (cards db) (transactions db) l.

Definition set_cards (db : Store) (m : gmap string Card.t) : Store :=
  mkStore (accounts db) m (transactions db) (statements db).

(** [Array.from(m.values())] of a [Map] whose keys were first inserted in
    the order [order]. *)
Definition Map_values {V : Type} (m : gmap string V) (order : list string) : list V :=
  omap (fun key => m !! key) order.


(** [Partial<Account>] and [Partial<Card>]: the fields an update carries;
    [None] is a field the object does not have.  [spendingLimit] is optional
    in [Card], so an update can carry it as [undefined] ([Some None]). *)
Module PartialAccount.
Record t : Type := mk {
  id : option string;
  creditLimit : option Z;
  currentBalance : option Z;
  status : option AccountStatus;
  createdAt : option Date;
  updatedAt : option Date
}.
End PartialAccount.

Module PartialCard.
Record t : Type := mk {
  id : option string;
  accountId : option string;
  status : option CardStatus;
  spendingLimit : option (option Z);
  createdAt : option Date;
  updatedAt : option Date
}.
End PartialCard.

Module accountsDb.

Definition findById (db : Store) (id : string) : option Account.t :=
  accounts db !! id.

(** [account.currentBalance += amountToAdd; account.updatedAt = new Date();
    accounts.set(id, account)]: the stored object is changed in place. *)
Definition updateBalance (db : Store) (id : string) (amountToAdd : Z) (now : Date)
  : Store * option Account.t :=
  match accounts db !! id with
  | None => (db, None)
  | Some account =>
      let account' :=
        Account.mk (Account.id account) (Account.creditLimit account)
          (Float64.add (Account.currentBalance account) amountToAdd)
          (Account.status account) (Account.createdAt account) now in
      (set_accounts db (<[id := account']> (accounts db)), Some account')
  end.


Definition create (db : Store) (account : Account.t) : Store * Account.t :=
  (set_accounts db (<[Account.id account := account]> (accounts db)), account).

(** [{ ...account, ...updates, updatedAt: new Date() }], stored under [id]. *)
Definition update (db : Store) (id : string) (updates : PartialAccount.t) (now : Date)
  : Store * option Account.t :=
  match accounts db !! id with
  | None => (db, None)
  | Some account =>
      let updated :=
        Account.mk
          (default (Account.id account) (PartialAccount.id updates))
          (default (Account.creditLimit account) (PartialAccount.creditLimit updates))
          (default (Account.currentBalance account)
             (PartialAccount.currentBalance updates))
          (default (Account.status account) (PartialAccount.status updates))
          (default (Account.createdAt account) (PartialAccount.createdAt updates))
          now in
      (set_accounts db (<[id := updated]> (accounts db)), Some updated)
  end.

End accountsDb.

Module cardsDb.

Definition findById (db : Store) (id : string) : option Card.t :=
  cards db !! id.

Definition create (db : Store) (card : Card.t) : Store * Card.t :=
  (set_cards db (<[Card.id card := card]> (cards db)), card).

Definition update (db : Store) (id : string) (updates : PartialCard.t) (now : Date)
  : Store * option Card.t :=
  match cards db !! id with
  | None => (db, None)
  | Some card =>
      let updated :=
        Card.mk
          (default (Card.id card) (PartialCard.id updates))
          (default (Card.accountId card) (PartialCard.accountId updates))
          (default (Card.status card) (PartialCard.status updates))
          (default (Card.spendingLimit card) (PartialCard.spendingLimit updates))
          (default (Card.createdAt card) (PartialCard.createdAt updates))
          now in
      (set_cards db (<[id := updated]> (cards db)), Some updated)
  end.

End cardsDb.

Module transactionsDb.

Definition findById (db : Store) (id : string) : option Transaction.t :=
  transactions db !! id.

Definition create (db : Store) (transaction : Transaction.t) : Store :=
  set_transactions db (<[Transaction.id transaction := transaction]> (transactions db)).

(** The filter of [findByAccountAndPeriod]; [status] is the optional fourth
    argument ([status ? tx.status === status : true]). *)
Definition matchesStatus (status : option TransactionStatus) (tx : Transaction.t) : bool :=
  match status with
  | Some s => TransactionStatus_eqb (Transaction.status tx) s
  | None => true
  end.

Definition inAccountAndPeriod (accountId : string) (periodStart periodEnd : Date)
    (status : option TransactionStatus) (tx : Transaction.t) : bool :=
  let inAccount := bool_decide (Transaction.accountId tx = accountId) in
  let inPeriod :=
    (periodStart <=? Transaction.createdAt tx) && (Transaction.createdAt tx <=? periodEnd) in
  inAccount && inPeriod && matchesStatus status tx.

(** [Array.from(transactions.values()).filter(...)]; [order] is the
    insertion order of the transactions. *)
Definition findByAccountAndPeriod (db : Store) (order : list string)
    (accountId : string) (periodStart periodEnd : Date)
    (status : option TransactionStatus) : list Transaction.t :=
  List.filter (inAccountAndPeriod accountId periodStart periodEnd status)
    (Map_values (transactions db) order).

End transactionsDb.

(* ===================================================================== *)
(** * Approval logic ([services/approvalLogic]) *)
(* ===================================================================== *)

Definition deny (reason : DenialReason) : ApprovalResult.t :=
  ApprovalResult.mk false (Some reason) None None.

(** [card.spendingLimit && payload.amount > card.spendingLimit]: the left
    operand is tested for truthiness, so [undefined] and [0] both skip the
    comparison. *)
Definition exceedsCardLimit (card : Card.t) (amount : Z) : bool :=
  match Card.spendingLimit card with
  | None => false
  | Some limit => negb (limit =? 0) && (limit <? amount)
  end.

Definition processTransaction (db : Store) (payload : Payload.t) : ApprovalResult.t :=
  match transactionsDb.findById db (Payload.id payload) with
  | Some existingTransaction =>
      ApprovalResult.mk
        (is_approved (Transaction.status existingTransaction))
        (Transaction.denialReason existingTransaction) None None
  | None =>
      match cardsDb.findById db (Payload.card_id payload) with
      | None => deny card_not_found
      | Some card =>
          if negb (card_is_active (Card.status card)) then deny card_not_active
          else
            match accountsDb.findById db (Card.accountId card) with
            | None => deny account_not_found
            | Some account =>
                if negb (account_is_active (Account.status account))
                then deny account_not_active
                else
                  let newBalance :=
                    Float64.add (Account.currentBalance account) (Payload.amount payload) in
                  if Account.creditLimit account <? newBalance
                  then deny insufficient_credit
                  else if exceedsCardLimit card (Payload.amount payload)
                  then deny exceeds_card_limit
                  else ApprovalResult.mk true None (Some card) (Some account)
            end
      end
  end.

(* ===================================================================== *)
(** * Webhook handler ([services/webhookHandler.ts]) *)
(* ===================================================================== *)

(** The [Transaction] literal built by the handler. *)
Definition buildTransaction (payload : Payload.t) (result : ApprovalResult.t)
    (card : option Card.t) (now : Date) : Transaction.t :=
  let address := MerchantData.address (Payload.merchant_data payload) in
  Transaction.mk
    (Payload.id payload)
    (Payload.card_id payload)
    (match card with Some c => Card.accountId c | None => "unknown" end)
    (Payload.amount payload)
    (Payload.currency payload)
    (MerchantData.category (Payload.merchant_data payload))
    (MerchantAddress.mk
       (PayloadAddress.line_1 address) (PayloadAddress.line_2 address)
       (PayloadAddress.city address) (PayloadAddress.state address)
       (PayloadAddress.country address))
    (if ApprovalResult.approved result then approved else denied)
    (ApprovalResult.reason result)
    now.

(** [tCreated] is the [new Date()] of the record, [tUpdated] the one taken
    inside [updateBalance]. *)
Definition handleTransactionWebhook (db : Store) (payload : Payload.t)
    (tCreated tUpdated : Date) : Store * WebhookResponse.t :=
  let result := processTransaction db payload in
  let response := WebhookResponse.mk (ApprovalResult.approved result) in
  match transactionsDb.findById db (Payload.id payload) with
  | Some _ => (db, response)
  | None =>
      let card :=
        match ApprovalResult.card result with
        | Some c => Some c
        | None => cardsDb.findById db (Payload.card_id payload)
        end in
      let transaction := buildTransaction payload result card tCreated in
      let db1 := transactionsDb.create db transaction in
      match ApprovalResult.approved result, card with
      | true, Some c =>
          (fst (accountsDb.updateBalance db1 (Card.accountId c)
                  (Payload.amount payload) tUpdated), response)
      | _, _ => (db1, response)
      end
  end.

(* ===================================================================== *)
(** * Payload validation ([utils/helpers.ts]) and the webhook route
      ([server.ts]) *)
(* ===================================================================== *)

(** The parsed request body, as much of a JavaScript value as
    [validateWebhookPayload] distinguishes. *)
#[warnings="-register-all"]
Inductive JsValue : Type :=
| JsUndefined
| JsNull
| JsBoolean (b : bool)
| JsNumber (n : Z)
| JsString (s : string)
| JsObject (fields : list (string * JsValue)).

Inductive JsType : Type :=
| type_undefined
| type_object
| type_boolean
| type_number
| type_string.

Definition typeof (v : JsValue) : JsType :=
  match v with
  | JsUndefined => type_undefined
  | JsNull => type_object
  | JsBoolean _ => type_boolean
  | JsNumber _ => type_number
  | JsString _ => type_string
  | JsObject _ => type_object
  end.

Definition JsType_eqb (t1 t2 : JsType) : bool :=
  match t1, t2 with
  | type_undefined, type_undefined
  | type_object, type_object
  | type_boolean, type_boolean
  | type_number, type_number
  | type_string, type_string => true
  | _, _ => false
  end.

(** [!v] is [negb (truthy v)]. *)
Definition truthy (v : JsValue) : bool :=
  match v with
  | JsUndefined | JsNull => false
  | JsBoolean b => b
  | JsNumber n => negb (n =? 0)
  | JsString s => negb (String.eqb s "")
  | JsObject _ => true
  end.

(** [v == null]. *)
Definition loosely_null (v : JsValue) : bool :=
  match v with
  | JsUndefined | JsNull => true
  | _ => false
  end.

Fixpoint lookup_field (fields : list (string * JsValue)) (key : string) : JsValue :=
  match fields with
  | [] => JsUndefined
  | (k, v) :: rest => if String.eqb k key then v else lookup_field rest key
  end.

(** [p.key] on a value already known to be an object (or not). *)
Definition property (p : JsValue) (key : string) : JsValue :=
  match p with
  | JsObject fields => lookup_field fields key
  | _ => JsUndefined
  end.

(** The five messages pushed by [validateWebhookPayload], and the one it
    returns alone; only their number is used by the caller. *)
Inductive ValidationError : Type :=
| payload_must_be_an_object
| missing_or_invalid_id
| missing_or_invalid_card_id
| missing_or_invalid_amount
| missing_or_invalid_currency
| missing_or_invalid_merchant_data.

Definition push_if (cond : bool) (e : ValidationError) (errors : list ValidationError)
  : list ValidationError :=
  if cond then errors ++ [e] else errors.

Definition validateWebhookPayload (payload : JsValue) : list ValidationError :=
  if negb (truthy payload) || negb (JsType_eqb (typeof payload) type_object)
  then [payload_must_be_an_object]
  else
    let p := property payload in
    let errors := [] in
    let errors :=
      push_if (negb (truthy (p "id")) || negb (JsType_eqb (typeof (p "id")) type_string))
        missing_or_invalid_id errors in
    let errors :=
      push_if (negb (truthy (p "card_id"))
               || negb (JsType_eqb (typeof (p "card_id")) type_string))
        missing_or_invalid_card_id errors in
    let errors :=
      push_if (loosely_null (p "amount")
               || negb (JsType_eqb (typeof (p "amount")) type_number))
        missing_or_invalid_amount errors in
    let errors :=
      push_if (negb (truthy (p "currency"))
               || negb (JsType_eqb (typeof (p "currency")) type_string))
        missing_or_invalid_currency errors in
    let errors :=
      push_if (negb (truthy (p "merchant_data"))
               || negb (JsType_eqb (typeof (p "merchant_data")) type_object))
        missing_or_invalid_merchant_data errors in
    errors.

(** The request body that the route casts to [TransactionWebhookPayload]. *)
Definition payloadBody (payload : Payload.t) : JsValue :=
  let merchant_data := Payload.merchant_data payload in
  let address := MerchantData.address merchant_data in
  JsObject
    [ ("id", JsString (Payload.id payload));
      ("card_id", JsString (Payload.card_id payload));
      ("amount", JsNumber (Payload.amount payload));
      ("currency", JsString (Payload.currency payload));
      ("merchant_data",
        JsObject
          [ ("category", JsNumber (MerchantData.category merchant_data));
            ("address",
              JsObject
                ([ ("line_1", JsString (PayloadAddress.line_1 address)) ]
                 ++ match PayloadAddress.line_2 address with
                    | Some l => [ ("line_2", JsString l) ]
                    | None => []
                    end
                 ++ [ ("city", JsString (PayloadAddress.city address));
                      ("state", JsString (PayloadAddress.state address));
                      ("country", JsString (PayloadAddress.country address)) ])) ]) ].

(** [POST /webhooks/transactions] on a body of the payload type: validation
    errors answer [{approved: false}] without reaching the handler. *)
Definition webhookRoute (db : Store) (payload : Payload.t) (tCreated tUpdated : Date)
  : Store * WebhookResponse.t :=
  match validateWebhookPayload (payloadBody payload) with
  | [] => handleTransactionWebhook db payload tCreated tUpdated
  | _ :: _ => (db, WebhookResponse.mk false)
  end.

(** [n] submissions handled one after the other, each to completion. *)
Record Call : Type := mkCall {
  call_payload : Payload.t;
  call_tCreated : Date;
  call_tUpdated : Date
}.

Fixpoint submitSequentially (db : Store) (calls : list Call)
  : Store * list WebhookResponse.t :=
  match calls with
  | [] => (db, [])
  | c :: rest =>
      let '(db1, r) :=
        handleTransactionWebhook db (call_payload c) (call_tCreated c) (call_tUpdated c) in
      let '(db2, rs) := submitSequentially db1 rest in
      (db2, r :: rs)
  end.

(* ===================================================================== *)
(** * The handler split at its [await]s *)
(* ===================================================================== *)

Module Interleaving.

(** A call of [handleTransactionWebhook] runs without interruption from one
    [await] to the next.  A store function called under [await] reads or
    writes the store at the moment of the call; the caller resumes with the
    value in a later turn.  [CallState] records where a call is suspended and
    what its local variables hold.

    [card] and [account] are references to the objects held by the store.
    No handler replaces a stored card or account, and only [updateBalance]
    changes one in place, so a suspended call that reads
    [account.currentBalance] after resuming reads the balance then held
    under the key the account was found at. *)
Inductive CallState : Type :=
(* called, nothing run yet *)
| Start
(* processTransaction, [await db.transactions.findById(payload.id)] *)
| PT_existing (existingTransaction : option Transaction.t)
(* processTransaction, [await db.cards.findById(payload.card_id)] *)
| PT_card (card : option Card.t)
(* processTransaction, [await db.accounts.findById(card.accountId)] *)
| PT_account (card : Card.t) (account : option Account.t)
(* handler, [await processTransaction(payload)] *)
| H_result (result : ApprovalResult.t)
(* handler, [await db.transactions.findById(payload.id)] *)
| H_existing (result : ApprovalResult.t) (existingTransaction : option Transaction.t)
(* handler, [result.card ?? await db.cards.findById(payload.card_id)] *)
| H_card (result : ApprovalResult.t) (card : option Card.t)
(* handler, [await db.transactions.create(transaction)] *)
| H_created (result : ApprovalResult.t) (card : option Card.t)
(* handler, [await db.accounts.updateBalance(card.accountId, payload.amount)] *)
| H_updated (result : ApprovalResult.t)
(* returned *)
| Done (response : WebhookResponse.t).

(** Record the transaction: lines 42 to 61 of the handler. *)
Definition record (c : Call) (db : Store) (result : ApprovalResult.t)
    (card : option Card.t) : Store * CallState :=
  (transactionsDb.create db (buildTransaction (call_payload c) result card (call_tCreated c)),
   H_created result card).

Definition step (c : Call) (db : Store) (t : CallState) : Store * CallState :=
  let payload := call_payload c in
  match t with
  | Start =>
      (db, PT_existing (transactionsDb.findById db (Payload.id payload)))
  | PT_existing (Some existingTransaction) =>
      (db, H_result (ApprovalResult.mk
                       (is_approved (Transaction.status existingTransaction))
                       (Transaction.denialReason existingTransaction) None None))
  | PT_existing None =>
      (db, PT_card (cardsDb.findById db (Payload.card_id payload)))
  | PT_card None => (db, H_result (deny card_not_found))
  | PT_card (Some card) =>
      if negb (card_is_active (Card.status card))
      then (db, H_result (deny card_not_active))
      else (db, PT_account card (accountsDb.findById db (Card.accountId card)))
  | PT_account card None => (db, H_result (deny account_not_found))
  | PT_account card (Some found) =>
      let account := default found (accounts db !! Card.accountId card) in
      if negb (account_is_active (Account.status account))
      then (db, H_result (deny account_not_active))
      else
        let newBalance :=
          Float64.add (Account.currentBalance account) (Payload.amount payload) in
        if Account.creditLimit account <? newBalance
        then (db, H_result (deny insufficient_credit))
        else if exceedsCardLimit card (Payload.amount payload)
        then (db, H_result (deny exceeds_card_limit))
        else (db, H_result (ApprovalResult.mk true None (Some card) (Some account)))
  | H_result result =>
      (db, H_existing result (transactionsDb.findById db (Payload.id payload)))
  | H_existing result (Some _) =>
      (db, Done (WebhookResponse.mk (ApprovalResult.approved result)))
  | H_existing result None =>
      match ApprovalResult.card result with
      | Some card => record c db result (Some card)
      | None => (db, H_card result (cardsDb.findById db (Payload.card_id payload)))
      end
  | H_card result card => record c db result card
  | H_created result card =>
      match ApprovalResult.approved result, card with
      | true, Some card =>
          (fst (accountsDb.updateBalance db (Card.accountId card)
                  (Payload.amount payload) (call_tUpdated c)),
           H_updated result)
      | _, _ => (db, Done (WebhookResponse.mk (ApprovalResult.approved result)))
      end
  | H_updated result =>
      (db, Done (WebhookResponse.mk (ApprovalResult.approved result)))
  | Done response => (db, Done response)
  end.

(** Calls in flight over one store. *)
Record System : Type := mkSystem {
  store : Store;
  in_flight : list (Call * CallState)
}.

Definition submitAll (db : Store) (calls : list Call) : System :=
  mkSystem db ((fun c => (c, Start)) <$> calls).

(** The scheduler resumes call [i]. *)
Definition resume (i : nat) (sys : System) : System :=
  match in_flight sys !! i with
  | None => sys
  | Some (c, t) =>
      let '(db, t') := step c (store sys) t in
      mkSystem db (<[i := (c, t')]> (in_flight sys))
  end.

Definition run (schedule : list nat) (sys : System) : System :=
  foldl (fun sys i => resume i sys) sys schedule.

Definition response_of (ct : Call * CallState) : option WebhookResponse.t :=
  match ct.2 with
  | Done response => Some response
  | _ => None
  end.

Definition responses (sys : System) : list (option WebhookResponse.t) :=
  response_of <$> in_flight sys.

(** One call running alone. *)
Fixpoint run_alone (fuel : nat) (c : Call) (db : Store) (t : CallState) : Store * CallState :=
  match fuel with
  | O => (db, t)
  | S fuel' => let '(db', t') := step c db t in run_alone fuel' c db' t'
  end.

End Interleaving.

(* ===================================================================== *)
(** * Statement generator ([services/statementGenerator]) *)
(* ===================================================================== *)

(** [Array.prototype.sort] is stable; with a comparator that only looks at
    a numeric key its result is the stable insertion sort's.  The sort uses
    the sign of the comparator's result only; the comparator of
    [findLatest] is a difference of two time values, whose sign binary64
    rounding keeps, so the difference is taken in [Z]. *)
Fixpoint sorted_insert {A : Type} (compareFn : A -> A -> Z) (x : A) (l : list A) : list A :=
  match l with
  | [] => [x]
  | y :: l' =>
      if compareFn x y <=? 0 then x :: l else y :: sorted_insert compareFn x l'
  end.

Definition Array_sort {A : Type} (compareFn : A -> A -> Z) (l : list A) : list A :=
  foldr (sorted_insert compareFn) [] l.

Module statementsDb.

Definition create (db : Store) (statement : Statement.t) : Store :=
  set_statements db (statements db ++ [statement]).

Definition findLatest (db : Store) (accountId : string) : option Statement.t :=
  let accountStatements :=
    Array_sort (fun a b => Statement.periodEnd b - Statement.periodEnd a)
      (List.filter (fun s => bool_decide (Statement.accountId s = accountId))
         (statements db)) in
  head accountStatements.

Definition findByAccountId (db : Store) (accountId : string) : list Statement.t :=
  List.filter (fun s => bool_decide (Statement.accountId s = accountId))
    (statements db).

End statementsDb.

Definition calculateMinimumPayment (balance : Z) : Z :=
  if balance <=? 0 then 0
  else
    let minimumFloor := 2500 in
    let percentagePayment := Float64.ceil (Float64.mul_0_02 balance) in
    if balance <? minimumFloor then balance
    else Z.max percentagePayment minimumFloor.

Section StatementGenerator.

(** [addDays] of [utils/helpers.ts] moves the day of the month of a local
    calendar date; the calendar is not modelled. *)
Variable addDays : Date -> Z -> Date.

(** [freshId] is the value of [generateId()], [now] that of [new Date()],
    [txOrder] the insertion order of the transactions. *)
Definition generateStatementForAccount (db : Store) (txOrder : list string)
    (accountId : string) (periodStart periodEnd : Date) (freshId : string) (now : Date)
  : Store * Statement.t :=
  let lastStatement := statementsDb.findLatest db accountId in
  let openingBalance :=
    match lastStatement with
    | Some s => Statement.closingBalance s
    | None => 0
    end in
  let transactions :=
    transactionsDb.findByAccountAndPeriod db txOrder accountId periodStart periodEnd
      (Some approved) in
  let totalSpent :=
    foldl (fun sum tx => Float64.add sum (Transaction.amount tx)) 0 transactions in
  let closingBalance := Float64.add openingBalance totalSpent in
  let minimumPayment := calculateMinimumPayment closingBalance in
  let statement :=
    Statement.mk freshId accountId periodStart periodEnd openingBalance
      closingBalance totalSpent minimumPayment (addDays periodEnd 25) now in
  (statementsDb.create db statement, statement).

End StatementGenerator.

Section MonthlyStatements.

Variable addDays : Date -> Z -> Date.

(** [subtractOneMonth] of [utils/helpers.ts] moves the month of a local
    calendar date; the calendar is not modelled. *)
Variable subtractOneMonth : Date -> Date.



End MonthlyStatements.


(* ===================================================================== *)
(** * The specification's wording, for comparison with the code *)
(* ===================================================================== *)

(** Minimum payment with the two percent taken exactly:
    [ceil (b * 2 / 100)] over the rationals. *)
Definition exact_ceil_two_percent (b : Z) : Z := - ((- (b * 2)) / 100).

Definition minimumPayment_spec (b : Z) : Z :=
  if b <=? 0 then 0
  else if b <? 2500 then b
  else Z.max (exact_ceil_two_percent b) 2500.

(** A transaction counted by a statement of [accountId] over
    [[periodStart, periodEnd]]. *)
Definition counted (accountId : string) (periodStart periodEnd : Date)
    (tx : Transaction.t) : Prop :=
  Transaction.accountId tx = accountId
  /\ Transaction.status tx = approved
  /\ periodStart <= Transaction.createdAt tx <= periodEnd.

#[global] Instance TransactionStatus_eq_dec : EqDecision TransactionStatus.
Proof. solve_decision. Defined.

#[global] Instance counted_dec accountId periodStart periodEnd tx :
  Decision (counted accountId periodStart periodEnd tx).
Proof. unfold counted. apply _. Defined.







(** Rule 6 as the specification words it: a limit that is set bounds the
    amount. *)
Definition within_card_limit (card : Card.t) (amount : Z) : Prop :=
  match Card.spendingLimit card with
  | Some limit => amount <= limit
  | None => True
  end.

(** No stored transaction has a negative amount. *)
Definition amounts_nonnegative (db : Store) : Prop :=
  forall id tx, transactions db !! id = Some tx -> 0 <= Transaction.amount tx.

(** The balance written by [updateBalance]. *)
Definition charged (account : Account.t) (amount : Z) (now : Date) : Account.t :=
  Account.mk (Account.id account) (Account.creditLimit account)
    (Float64.add (Account.currentBalance account) amount)
    (Account.status account) (Account.createdAt account) now.

(** ** What the field tests of the validation accept *)

Definition is_nonempty_string (v : JsValue) : bool :=
  match v with
  | JsString s => negb (String.eqb s "")
  | _ => false
  end.

Definition is_number (v : JsValue) : bool :=
  match v with
  | JsNumber _ => true
  | _ => false
  end.

Definition is_object (v : JsValue) : bool :=
  match v with
  | JsObject _ => true
  | _ => false
  end.

(** ** Invariants of the ledger *)

(** Every account owes at most its credit limit. *)
Definition within_limits (db : Store) : Prop :=
  forall key account,
    accounts db !! key = Some account ->
    Account.currentBalance account <= Account.creditLimit account.

(** A record has a denial reason exactly when it is denied. *)
Definition reason_matches_status (tx : Transaction.t) : bool :=
  match Transaction.status tx, Transaction.denialReason tx with
  | approved, None | denied, Some _ => true
  | _, _ => false
  end.

Definition records_consistent (db : Store) : Prop :=
  forall id tx, transactions db !! id = Some tx -> reason_matches_status tx = true.




(** What no call of the handler changes: cards, statements, the terms of
    an account other than its balance, and the presence of a record. *)
Definition account_terms (account : Account.t)
  : string * Z * AccountStatus * Date :=
  (Account.id account, Account.creditLimit account, Account.status account,
   Account.createdAt account).

Definition store_frame (db db' : Store) : Prop :=
  cards db' = cards db
  /\ statements db' = statements db
  /\ (forall key,
        account_terms <$> accounts db' !! key = account_terms <$> accounts db !! key)
  /\ (forall id, is_Some (transactions db !! id) -> is_Some (transactions db' !! id)).

(** ** Invariant of interleaved calls of one identifier *)

(** States in which the call has seen, or has written, a record of its
    identifier. *)
Definition seen (t : Interleaving.CallState) : bool :=
  match t with
  | Interleaving.PT_existing (Some _) | Interleaving.H_existing _ (Some _)
  | Interleaving.H_created _ _ | Interleaving.H_updated _ | Interleaving.Done _ => true
  | _ => false
  end.

Definition call_inv (id : string) (db : Store) (ct : Call * Interleaving.CallState) : Prop :=
  Payload.id (call_payload ct.1) = id
  /\ (seen ct.2 = true -> is_Some (transactions db !! id)).

Definition is_Some_bool {A : Type} (o : option A) : bool :=
  match o with Some _ => true | None => false end.

Definition all_done (sys : Interleaving.System) : Prop :=
  Forall (fun ct => is_Some (Interleaving.response_of ct)) (Interleaving.in_flight sys).

Definition system_inv (id : string) (sys : Interleaving.System) : Prop :=
  Forall (call_inv id (Interleaving.store sys)) (Interleaving.in_flight sys).

(** States from which a call writes its record without looking again, and
    the invariant of a record that was in the store before any call
    started: it is still there, and no call of its identifier is about to
    write. *)
Definition about_to_record (t : Interleaving.CallState) : bool :=
  match t with
  | Interleaving.H_existing _ None | Interleaving.H_card _ _ => true
  | _ => false
  end.

Definition kept_inv (id : string) (tx : Transaction.t) (sys : Interleaving.System)
  : Prop :=
  transactions (Interleaving.store sys) !! id = Some tx
  /\ Forall
       (fun ct => Payload.id (call_payload ct.1) = id -> about_to_record ct.2 = false)
       (Interleaving.in_flight sys).

(** The comparator of [findLatest]: descending by key. *)
Definition descending {A : Type} (key : A -> Z) (a b : A) : Z := key b - key a.

(* ===================================================================== *)
(** * Scenario data (section 8 of the specification) *)
(* ===================================================================== *)

Module Scenario.

Definition A1 : Account.t := Account.mk "A1" 100000 0 account_active 0 0.
Definition C1 : Card.t := Card.mk "C1" "A1" card_active None 0 0.
Definition C2 : Card.t := Card.mk "C2" "A1" card_active (Some 10000) 0 0.
(** A card whose spending limit is set to zero. *)
Definition C3 : Card.t := Card.mk "C3" "A1" card_active (Some 0) 0 0.

Definition db0 : Store :=
  mkStore {[ "A1" := A1 ]}
    (<[ "C1" := C1 ]> (<[ "C2" := C2 ]> {[ "C3" := C3 ]})) ∅ [].

Definition merchant : MerchantData.t :=
  MerchantData.mk 5411 (PayloadAddress.mk "1 Main St" None "Springfield" "IL" "US").

Definition request (id card_id : string) (amount : Z) : Payload.t :=
  Payload.mk id card_id amount "USD" merchant.

Definition T1 : Payload.t := request "T1" "C1" 50000.
Definition T2 : Payload.t := request "T2" "C1" 60000.

(** Balances at [2^53], the first integer whose successor is not a double:
    [A2] has room left under its limit, [A3] is at its limit. *)
Definition A2 : Account.t := Account.mk "A2" (2 ^ 54) (2 ^ 53) account_active 0 0.
Definition A3 : Account.t := Account.mk "A3" (2 ^ 53) (2 ^ 53) account_active 0 0.
Definition card_A2 : Card.t := Card.mk "CA2" "A2" card_active None 0 0.
Definition card_A3 : Card.t := Card.mk "CA3" "A3" card_active None 0 0.

Definition db_large : Store :=
  mkStore (<[ "A2" := A2 ]> {[ "A3" := A3 ]})
    (<[ "CA2" := card_A2 ]> {[ "CA3" := card_A3 ]}) ∅ [].

(** The store after [T1] has been handled once, and the record it left. *)
Definition db1 : Store := (handleTransactionWebhook db0 T1 1000 1001).1.

Definition T1_record : Transaction.t :=
  buildTransaction T1 (ApprovalResult.mk true None (Some C1) (Some A1)) (Some C1) 1000.

(** The statement scenario: a prior statement closing at 40000, and in the
    period [[1000, 2000]] two approved transactions of 5000 and 3000, one at
    each end of the period; a refused one, one after the period and one of
    another account are in the store too. *)
Definition purchase (id accountId : string) (amount : Z) (status : TransactionStatus)
    (createdAt : Date) : Transaction.t :=
  Transaction.mk id "C1" accountId amount "USD" 5411
    (MerchantAddress.mk "1 Main St" None "Springfield" "IL" "US")
    status
    (match status with approved => None | denied => Some insufficient_credit end)
    createdAt.

Definition prior_statement : Statement.t :=
  Statement.mk "S0" "A1" 0 999 0 40000 40000 2500 25999 999.

Definition older_statement : Statement.t :=
  Statement.mk "S00" "A1" (-1000) (-1) 0 7000 7000 2500 24999 (-1).

Definition db_statement : Store :=
  mkStore {[ "A1" := A1 ]} {[ "C1" := C1 ]}
    (<[ "P1" := purchase "P1" "A1" 5000 approved 1000 ]>
       (<[ "P2" := purchase "P2" "A1" 3000 approved 2000 ]>
          (<[ "P3" := purchase "P3" "A1" 900 denied 1500 ]>
             (<[ "P4" := purchase "P4" "A1" 700 approved 2001 ]>
                {[ "P5" := purchase "P5" "A2" 600 approved 1500 ]}))))
    [older_statement; prior_statement].



(** The order in which the purchases of [db_statement] were inserted. *)
Definition order_statement : list string := ["P1"; "P2"; "P3"; "P4"; "P5"].



(** A calendar without daylight-saving shifts. *)
Definition addDays_utc (date : Date) (days : Z) : Date := date + days * 86400000.


End Scenario.

(* ===================================================================== *)
(** * binary64 addition of integers *)
(* ===================================================================== *)

Section Float64Addition.
Import Float64.

(** Integers of at most 53 bits, and [2^53] itself, are doubles. *)
Lemma round53_exact n : 0 <= n <= 2 ^ 53 -> round53 n = n.
Proof.
  intros Hn.
  destruct (Z.eq_dec n (2 ^ 53)) as [->|Hne]; [vm_compute; reflexivity|].
  unfold round53.
  assert (Hs : Z.max 0 (Z.log2 n - 52) = 0).
  { destruct (Z.eq_dec n 0) as [->|Hnz]; [reflexivity|].
    assert (Z.log2 n < 53) by (apply Z.log2_lt_pow2; lia). lia. }
  rewrite Hs. unfold nearest_even.
  change (2 ^ 0) with 1. rewrite Z.mod_1_r, Z.div_1_r.
  change (2 * 0 <? 1) with true. cbv iota. lia.
Qed.

Lemma round_exact z : Z.abs z <= 2 ^ 53 -> round z = z.
Proof.
  intros Hz. unfold round. rewrite round53_exact by lia.
  destruct z; cbn; lia.
Qed.

(** A sum of magnitude at most [2^53] is computed exactly. *)
Lemma add_exact a b : Z.abs (a + b) <= 2 ^ 53 -> add a b = a + b.
Proof. intros H. unfold add. apply round_exact, H. Qed.




End Float64Addition.

(* ===================================================================== *)
(** * Approval logic and handler: sequential behaviour *)
(* ===================================================================== *)

Section Approval.

Implicit Types (db : Store) (payload : Payload.t).

(** The rule chain once the idempotency check has found nothing. *)
Lemma processTransaction_new db payload :
  transactions db !! Payload.id payload = None ->
  processTransaction db payload =
    match cards db !! Payload.card_id payload with
    | None => deny card_not_found
    | Some card =>
        if negb (card_is_active (Card.status card)) then deny card_not_active
        else
          match accounts db !! Card.accountId card with
          | None => deny account_not_found
          | Some account =>
              if negb (account_is_active (Account.status account))
              then deny account_not_active
              else if Account.creditLimit account
                        <? Float64.add (Account.currentBalance account)
                             (Payload.amount payload)
              then deny insufficient_credit
              else if exceedsCardLimit card (Payload.amount payload)
              then deny exceeds_card_limit
              else ApprovalResult.mk true None (Some card) (Some account)
          end
    end.
Proof.
  intros Hnew. unfold processTransaction, transactionsDb.findById,
    cardsDb.findById, accountsDb.findById.
  rewrite Hnew. reflexivity.
Qed.

Lemma processTransaction_replay db payload existing :
  transactions db !! Payload.id payload = Some existing ->
  processTransaction db payload =
    ApprovalResult.mk (is_approved (Transaction.status existing))
      (Transaction.denialReason existing) None None.
Proof.
  intros Hold. unfold processTransaction, transactionsDb.findById.
  rewrite Hold. reflexivity.
Qed.


(** What the handler does to a store that has no record of the request. *)
Lemma handleTransactionWebhook_new db payload tCreated tUpdated :
  transactions db !! Payload.id payload = None ->
  let result := processTransaction db payload in
  let card :=
    match ApprovalResult.card result with
    | Some c => Some c
    | None => cards db !! Payload.card_id payload
    end in
  let db1 := transactionsDb.create db (buildTransaction payload result card tCreated) in
  handleTransactionWebhook db payload tCreated tUpdated =
    (match ApprovalResult.approved result, card with
     | true, Some c =>
         fst (accountsDb.updateBalance db1 (Card.accountId c)
                (Payload.amount payload) tUpdated)
     | _, _ => db1
     end,
     WebhookResponse.mk (ApprovalResult.approved result)).
Proof.
  intros Hnew. cbn zeta.
  unfold handleTransactionWebhook, transactionsDb.findById, cardsDb.findById.
  rewrite Hnew.
  destruct (ApprovalResult.approved (processTransaction db payload));
    destruct (ApprovalResult.card (processTransaction db payload));
    try destruct (cards db !! Payload.card_id payload); reflexivity.
Qed.

(** The handler never touches cards or statements, and the records it
    leaves are the old ones plus at most the one for the request. *)
Lemma handleTransactionWebhook_transactions db payload tCreated tUpdated :
  let db' := (handleTransactionWebhook db payload tCreated tUpdated).1 in
  transactions db' = transactions db
  \/ (transactions db !! Payload.id payload = None
      /\ exists tx,
           transactions db' = <[Payload.id payload := tx]> (transactions db)
           /\ Transaction.amount tx = Payload.amount payload
           /\ Transaction.status tx
              = (if ApprovalResult.approved (processTransaction db payload)
                 then approved else denied)).
Proof.
  cbn zeta.
  destruct (transactions db !! Payload.id payload) as [old|] eqn:Hid.
  - left. unfold handleTransactionWebhook, transactionsDb.findById.
    rewrite Hid. reflexivity.
  - right. split; [reflexivity|].
    rewrite (handleTransactionWebhook_new _ _ _ _ Hid). cbn zeta.
    match goal with
    | |- context [buildTransaction ?p ?r ?c ?t] =>
        exists (buildTransaction p r c t)
    end.
    split; [|split; reflexivity].
    destruct (ApprovalResult.approved (processTransaction db payload));
      destruct (ApprovalResult.card (processTransaction db payload)) as [c|];
      try destruct (cards db !! Payload.card_id payload) as [c'|];
      cbn [fst]; unfold accountsDb.updateBalance, transactionsDb.create;
      cbn [accounts transactions set_transactions set_accounts];
      try match goal with
        | |- context [accounts db !! ?k] => destruct (accounts db !! k)
        end; reflexivity.
Qed.

End Approval.

Section ApprovalRules.

Implicit Types (db : Store) (payload : Payload.t).

(** C1. A payload whose identifier already has a Transaction record gets
    the recorded verdict: [approved: true] when the stored status is
    approved, [approved: false] when it is denied.  The handler creates no
    record and leaves every account's [currentBalance] as it was -- the
    store is returned unchanged. *)
Theorem C1_resubmission_replays_the_verdict db payload tCreated tUpdated existing :
  transactions db !! Payload.id payload = Some existing ->
  let out := handleTransactionWebhook db payload tCreated tUpdated in
  out.2 = match Transaction.status existing with
          | approved => WebhookResponse.mk true
          | denied => WebhookResponse.mk false
          end
  /\ transactions out.1 = transactions db
  /\ (forall id,
        Account.currentBalance <$> accounts out.1 !! id
        = Account.currentBalance <$> accounts db !! id)
  /\ out.1 = db.
Proof.
  intros Hold. cbn zeta.
  unfold handleTransactionWebhook.
  rewrite (processTransaction_replay _ _ _ Hold).
  unfold transactionsDb.findById. rewrite Hold. cbn.
  split; [destruct (Transaction.status existing); reflexivity|].
  repeat split; reflexivity.
Qed.




(** C4, as the code has it.  The credit-limit rule is strict.  For a
    request without record, on an active card of an active account, whose
    balance plus amount has magnitude at most [2^53] (so that the code's sum
    is exact): a charge that brings the balance exactly to the limit is not
    refused for credit, and is approved when the amount is within the
    card's limit; the refusal [insufficient_credit] is given exactly when
    balance plus amount is greater than the limit. *)
Theorem C4_credit_limit_is_strict db payload card account :
  transactions db !! Payload.id payload = None ->
  cards db !! Payload.card_id payload = Some card ->
  Card.status card = card_active ->
  accounts db !! Card.accountId card = Some account ->
  Account.status account = account_active ->
  Z.abs (Account.currentBalance account + Payload.amount payload) <= 2 ^ 53 ->
  let result := processTransaction db payload in
  (Account.currentBalance account + Payload.amount payload
     = Account.creditLimit account ->
   ApprovalResult.reason result <> Some insufficient_credit
   /\ (within_card_limit card (Payload.amount payload) ->
       result = ApprovalResult.mk true None (Some card) (Some account)))
  /\ (ApprovalResult.reason result = Some insufficient_credit
      <-> Account.currentBalance account + Payload.amount payload
            > Account.creditLimit account)
  /\ (Account.currentBalance account + Payload.amount payload
        > Account.creditLimit account ->
      result = ApprovalResult.mk false (Some insufficient_credit) None None).
Proof.
  intros Hnew Hcard Hst Hacc Hast Hroom. cbn zeta.
  rewrite (processTransaction_new _ _ Hnew), Hcard, Hst, Hacc, Hast.
  cbn [negb card_is_active account_is_active].
  rewrite (add_exact _ _ Hroom).
  unfold within_card_limit, exceedsCardLimit.
  destruct (Z.ltb_spec (Account.creditLimit account)
              (Account.currentBalance account + Payload.amount payload)) as [Hlt|Hle].
  - split; [intros Heq; lia|].
    split; [split; [intros _; lia|reflexivity]|reflexivity].
  - split; [|split].
    + intros _. split.
      * destruct (Card.spendingLimit card) as [limit|]; [|discriminate].
        destruct (negb (limit =? 0) && (limit <? Payload.amount payload));
          discriminate.
      * destruct (Card.spendingLimit card) as [limit|]; [|reflexivity].
        intros Hlim. destruct (Z.ltb_spec limit (Payload.amount payload)); [lia|].
        rewrite andb_false_r. reflexivity.
    + split; [|intros Hgt; lia].
      destruct (Card.spendingLimit card) as [limit|]; [|discriminate].
      destruct (negb (limit =? 0) && (limit <? Payload.amount payload));
        discriminate.
    + intros Hgt; lia.
Qed.

(** C4 as stated fails where the sum is not a double.  Account [A3] owes
    [2^53], which is also its limit; balance plus 1 is greater than the
    limit, but the code's sum rounds back to [2^53], the comparison
    [newBalance > creditLimit] is false and the request is approved. *)
Lemma C4_sum_beyond_2_53_passes_the_credit_rule :
  let payload := Scenario.request "T8" "CA3" 1 in
  let result := processTransaction Scenario.db_large payload in
  transactions Scenario.db_large !! Payload.id payload = None
  /\ cards Scenario.db_large !! Payload.card_id payload = Some Scenario.card_A3
  /\ Card.status Scenario.card_A3 = card_active
  /\ accounts Scenario.db_large !! Card.accountId Scenario.card_A3 = Some Scenario.A3
  /\ Account.status Scenario.A3 = account_active
  /\ Float64.representable (Account.currentBalance Scenario.A3)
  /\ Float64.representable (Account.creditLimit Scenario.A3)
  /\ Float64.representable (Payload.amount payload)
  /\ Account.currentBalance Scenario.A3 + Payload.amount payload
       > Account.creditLimit Scenario.A3
  /\ result = ApprovalResult.mk true None (Some Scenario.card_A3) (Some Scenario.A3)
  /\ ApprovalResult.reason result <> Some insufficient_credit.
Proof. vm_compute. repeat split; congruence. Qed.

(** The card-limit rule on a limit other than zero: refusal exactly when
    the amount is over the limit. *)
Lemma exceedsCardLimit_nonzero card amount limit :
  Card.spendingLimit card = Some limit ->
  limit <> 0 ->
  exceedsCardLimit card amount = (limit <? amount).
Proof.
  intros Hl Hnz. unfold exceedsCardLimit. rewrite Hl.
  destruct (Z.eqb_spec limit 0); [contradiction|reflexivity].
Qed.

Lemma exceedsCardLimit_unset card amount :
  Card.spendingLimit card = None -> exceedsCardLimit card amount = false.
Proof. intros Hl. unfold exceedsCardLimit. rewrite Hl. reflexivity. Qed.

Lemma exceedsCardLimit_zero card amount :
  Card.spendingLimit card = Some 0 -> exceedsCardLimit card amount = false.
Proof. intros Hl. unfold exceedsCardLimit. rewrite Hl. reflexivity. Qed.

(** X4.  Rule 6 on a card whose limit is absent or other than zero, for a
    request that passes rules 1 to 5 (the sum of rule 5 as the code adds
    it): refused with [exceeds_card_limit] when the amount is over the
    limit, approved otherwise. *)
Lemma card_limit_rule_on_other_limits db payload card account :
  transactions db !! Payload.id payload = None ->
  cards db !! Payload.card_id payload = Some card ->
  Card.status card = card_active ->
  accounts db !! Card.accountId card = Some account ->
  Account.status account = account_active ->
  Float64.add (Account.currentBalance account) (Payload.amount payload)
    <= Account.creditLimit account ->
  Card.spendingLimit card <> Some 0 ->
  (forall limit,
     Card.spendingLimit card = Some limit ->
     limit < Payload.amount payload ->
     processTransaction db payload
     = ApprovalResult.mk false (Some exceeds_card_limit) None None)
  /\ (within_card_limit card (Payload.amount payload) ->
      processTransaction db payload
      = ApprovalResult.mk true None (Some card) (Some account)).
Proof.
  intros Hnew Hcard Hst Hacc Hast Hcredit Hnz.
  rewrite (processTransaction_new _ _ Hnew), Hcard, Hst, Hacc, Hast.
  cbn [negb card_is_active account_is_active].
  destruct (Z.ltb_spec (Account.creditLimit account)
              (Float64.add (Account.currentBalance account) (Payload.amount payload)));
    [lia|].
  split.
  - intros limit Hl Hover.
    rewrite (exceedsCardLimit_nonzero _ _ _ Hl) by congruence.
    destruct (Z.ltb_spec limit (Payload.amount payload)); [reflexivity|lia].
  - unfold within_card_limit.
    destruct (Card.spendingLimit card) as [limit|] eqn:Hl.
    + intros Hle. rewrite (exceedsCardLimit_nonzero _ _ _ Hl) by congruence.
      destruct (Z.ltb_spec limit (Payload.amount payload)); [lia|reflexivity].
    + intros _. rewrite (exceedsCardLimit_unset _ _ Hl). reflexivity.
Qed.

(** C5, at the input where the code departs from it.  Card [C3] has its
    spending limit set to 0 and belongs to an active account with credit
    to spare; a request for 100 passes rules 1 to 5 and exceeds the limit
    that is set, and the code approves it. *)
Theorem C5_zero_spending_limit_is_approved :
  let payload := Scenario.request "T3" "C3" 100 in
  transactions Scenario.db0 !! Payload.id payload = None
  /\ cards Scenario.db0 !! Payload.card_id payload = Some Scenario.C3
  /\ Card.spendingLimit Scenario.C3 = Some 0
  /\ Payload.amount payload > 0
  /\ processTransaction Scenario.db0 payload
     = ApprovalResult.mk true None (Some Scenario.C3) (Some Scenario.A1).
Proof. vm_compute. repeat split; reflexivity. Qed.

(** C10, as the code has it.  A card whose spending limit is present and
    equal to 0 is never checked against it: the rule's condition is false
    for every amount; a request without record that names the card is never
    refused with [exceeds_card_limit]; once rules 1 to 4 pass, the
    credit-limit rule alone decides: the request is approved when the
    code's sum of balance and amount is within the credit limit, and
    refused with [insufficient_credit] when it is not. *)
Theorem C10_zero_limit_skips_the_card_rule db payload card :
  transactions db !! Payload.id payload = None ->
  cards db !! Payload.card_id payload = Some card ->
  Card.spendingLimit card = Some 0 ->
  (forall amount, exceedsCardLimit card amount = false)
  /\ ApprovalResult.reason (processTransaction db payload) <> Some exceeds_card_limit
  /\ (forall account,
        Card.status card = card_active ->
        accounts db !! Card.accountId card = Some account ->
        Account.status account = account_active ->
        (Float64.add (Account.currentBalance account) (Payload.amount payload)
           <= Account.creditLimit account ->
         processTransaction db payload
         = ApprovalResult.mk true None (Some card) (Some account))
        /\ (Float64.add (Account.currentBalance account) (Payload.amount payload)
              > Account.creditLimit account ->
            processTransaction db payload
            = ApprovalResult.mk false (Some insufficient_credit) None None)).
Proof.
  intros Hnew Hcard Hzero.
  split; [intros amount; apply exceedsCardLimit_zero, Hzero|].
  rewrite (processTransaction_new _ _ Hnew), Hcard.
  rewrite (exceedsCardLimit_zero _ _ Hzero).
  split.
  - destruct (negb (card_is_active (Card.status card))); [discriminate|].
    destruct (accounts db !! Card.accountId card) as [account|]; [|discriminate].
    destruct (negb (account_is_active (Account.status account))); [discriminate|].
    destruct (Account.creditLimit account <? _); discriminate.
  - intros account Hst Hacc Hast. rewrite Hst, Hacc, Hast.
    cbn [negb card_is_active account_is_active].
    destruct (Z.ltb_spec (Account.creditLimit account)
                (Float64.add (Account.currentBalance account) (Payload.amount payload)));
      split; intros Hle; first [reflexivity|lia].
Qed.

(** C10 as stated, for every request, fails on a resubmission.  Request
    [T4] for 15000 on card [C2] (limit 10000) is refused with
    [exceeds_card_limit] and recorded.  The same identifier submitted on
    card [C3], whose limit is 0, gets the recorded verdict: the decision
    engine returns [exceeds_card_limit] for a card with limit 0. *)
Lemma C10_replay_reports_exceeds_card_limit :
  let first := Scenario.request "T4" "C2" 15000 in
  let db := (handleTransactionWebhook Scenario.db0 first 1000 1001).1 in
  let payload := Scenario.request "T4" "C3" 100 in
  processTransaction Scenario.db0 first
  = ApprovalResult.mk false (Some exceeds_card_limit) None None
  /\ cards db !! Payload.card_id payload = Some Scenario.C3
  /\ Card.spendingLimit Scenario.C3 = Some 0
  /\ is_Some (transactions db !! Payload.id payload)
  /\ processTransaction db payload
     = ApprovalResult.mk false (Some exceeds_card_limit) None None
  /\ ApprovalResult.reason (processTransaction db payload) = Some exceeds_card_limit.
Proof.
  vm_compute. repeat split; try reflexivity. eexists; reflexivity.
Qed.

End ApprovalRules.

(* ===================================================================== *)
(** * Validation and the sign of stored amounts *)
(* ===================================================================== *)

Section Validation.

Implicit Types (db : Store) (payload : Payload.t).

(** Validation looks at the presence and the type of the five fields and
    at nothing else: a typed payload passes exactly when its three strings
    [id], [card_id] and [currency] are not empty, whatever its amount. *)
Lemma validateWebhookPayload_typed payload :
  validateWebhookPayload (payloadBody payload) = []
  <-> Payload.id payload <> ""
      /\ Payload.card_id payload <> ""
      /\ Payload.currency payload <> "".
Proof.
  unfold validateWebhookPayload, payloadBody, property, push_if.
  cbn [truthy typeof JsType_eqb negb orb lookup_field String.eqb
       Ascii.eqb Bool.eqb loosely_null app].
  destruct (String.eqb_spec (Payload.id payload) "") as [Hi|Hi];
    destruct (String.eqb_spec (Payload.card_id payload) "") as [Hc|Hc];
    destruct (String.eqb_spec (Payload.currency payload) "") as [Hu|Hu];
    cbn; split; try discriminate; try tauto; intros _; repeat split; assumption.
Qed.

Lemma amounts_nonnegative_insert db id tx :
  amounts_nonnegative db ->
  0 <= Transaction.amount tx ->
  forall id' tx',
    <[id := tx]> (transactions db) !! id' = Some tx' ->
    0 <= Transaction.amount tx'.
Proof.
  intros Hdb Htx id' tx' Hlook.
  destruct (decide (id = id')) as [->|Hne].
  - rewrite lookup_insert_eq in Hlook. congruence.
  - rewrite lookup_insert_ne in Hlook by exact Hne. eapply Hdb, Hlook.
Qed.

Lemma handleTransactionWebhook_amounts db payload tCreated tUpdated :
  amounts_nonnegative db ->
  0 <= Payload.amount payload ->
  amounts_nonnegative (handleTransactionWebhook db payload tCreated tUpdated).1.
Proof.
  intros Hdb Hpos.
  destruct (handleTransactionWebhook_transactions db payload tCreated tUpdated)
    as [Hsame|(_ & tx & Hins & Hamt & _)];
    intros id' tx'.
  - rewrite Hsame. apply Hdb.
  - rewrite Hins. apply amounts_nonnegative_insert; [exact Hdb|lia].
Qed.

(** C9, as the code has it.  The route stores the payload's amount as it
    was received, whatever its sign: a request without record whose three
    strings are not empty leaves a record holding the payload's amount, and
    every record in the store after a call is either a record that was
    there before or the record of the request, holding the payload's
    amount.  Stored amounts therefore stay non-negative when the submitted
    amount is non-negative. *)
Theorem C9_stored_amount_is_the_payload_amount db payload tCreated tUpdated :
  let db' := (webhookRoute db payload tCreated tUpdated).1 in
  (transactions db !! Payload.id payload = None ->
   Payload.id payload <> "" ->
   Payload.card_id payload <> "" ->
   Payload.currency payload <> "" ->
   exists tx,
     transactions db' !! Payload.id payload = Some tx
     /\ Transaction.amount tx = Payload.amount payload)
  /\ (forall id tx,
        transactions db' !! id = Some tx ->
        transactions db !! id = Some tx
        \/ (id = Payload.id payload
            /\ transactions db !! id = None
            /\ Transaction.amount tx = Payload.amount payload))
  /\ (amounts_nonnegative db ->
      0 <= Payload.amount payload ->
      amounts_nonnegative db').
Proof.
  cbn zeta. unfold webhookRoute.
  pose proof (validateWebhookPayload_typed payload) as Hvalid.
  destruct (validateWebhookPayload (payloadBody payload)) as [|e errors].
  - pose proof (handleTransactionWebhook_transactions db payload tCreated tUpdated)
      as Htxs. cbn zeta in Htxs.
    split; [|split].
    + intros Hnew _ _ _.
      destruct Htxs as [Hsame|(_ & tx0 & Hins & Hamt & _)].
      * exfalso. revert Hsame.
        rewrite (handleTransactionWebhook_new _ _ _ _ Hnew). cbn zeta.
        intros Hsame.
        assert (Hin : is_Some (transactions db !! Payload.id payload));
          [|rewrite Hnew in Hin; destruct Hin; discriminate].
        rewrite <- Hsame.
        destruct (ApprovalResult.approved (processTransaction db payload));
          destruct (ApprovalResult.card (processTransaction db payload)) as [c|];
          try destruct (cards db !! Payload.card_id payload) as [c'|];
          cbn [fst]; unfold accountsDb.updateBalance, transactionsDb.create;
          cbn [accounts transactions set_transactions set_accounts];
          try match goal with
            | |- context [accounts db !! ?k] => destruct (accounts db !! k)
            end;
          cbn [fst transactions set_accounts set_transactions buildTransaction
               Transaction.id];
          rewrite lookup_insert_eq; eexists; reflexivity.
      * exists tx0. rewrite Hins, lookup_insert_eq. split; [reflexivity|exact Hamt].
    + intros id tx Hlook.
      destruct Htxs as [Hsame|(Hnew & tx0 & Hins & Hamt & _)].
      * left. rewrite <- Hsame. exact Hlook.
      * rewrite Hins in Hlook.
        destruct (decide (Payload.id payload = id)) as [<-|Hne].
        -- rewrite lookup_insert_eq in Hlook. right.
           split; [reflexivity|]. split; [exact Hnew|congruence].
        -- rewrite lookup_insert_ne in Hlook by exact Hne. left. exact Hlook.
    + apply handleTransactionWebhook_amounts.
  - cbn [fst]. split; [|split].
    + intros _ Hi Hc Hu. assert (Hnil : e :: errors = []) by (apply Hvalid; auto).
      discriminate.
    + intros id tx Hlook. left. exact Hlook.
    + intros Hdb _. exact Hdb.
Qed.

(** C9 as stated fails: a request for -100 passes validation, is approved
    by the rule chain and is stored with its negative amount; the balance
    of the account goes down by 100. *)
Lemma C9_negative_amount_is_stored :
  let payload := Scenario.request "T9" "C1" (-100) in
  let db' := (webhookRoute Scenario.db0 payload 1000 1001).1 in
  amounts_nonnegative Scenario.db0
  /\ validateWebhookPayload (payloadBody payload) = []
  /\ (exists tx,
        transactions db' !! "T9" = Some tx
        /\ Transaction.amount tx = -100
        /\ Transaction.status tx = approved)
  /\ Account.currentBalance <$> accounts db' !! "A1" = Some (-100)
  /\ ~ amounts_nonnegative db'.
Proof.
  cbn zeta. split; [|split; [|split; [|split]]].
  - intros id tx Hlook. unfold Scenario.db0 in Hlook.
    cbn [transactions] in Hlook. rewrite lookup_empty in Hlook. discriminate.
  - vm_compute. reflexivity.
  - eexists. split; [vm_compute; reflexivity|]. split; reflexivity.
  - vm_compute. reflexivity.
  - intros Hall.
    assert (Hneg : 0 <= -100); [|lia].
    refine (Hall "T9" (buildTransaction (Scenario.request "T9" "C1" (-100))
                         (ApprovalResult.mk true None (Some Scenario.C1)
                            (Some Scenario.A1))
                         (Some Scenario.C1) 1000) _).
    vm_compute. reflexivity.
Qed.

End Validation.

(* ===================================================================== *)
(** * The minimum payment and its binary64 product *)
(* ===================================================================== *)

Section Float64Facts.
Import Float64.

Lemma nearest_even_cases n s :
  0 <= n -> 0 <= s ->
  (nearest_even n s = n / 2 ^ s /\ 2 * (n mod 2 ^ s) <= 2 ^ s)
  \/ (nearest_even n s = n / 2 ^ s + 1 /\ 2 ^ s <= 2 * (n mod 2 ^ s)).
Proof.
  intros Hn Hs. unfold nearest_even.
  destruct (Z.ltb_spec (2 * (n mod 2 ^ s)) (2 ^ s)); [left; lia|].
  destruct (Z.ltb_spec (2 ^ s) (2 * (n mod 2 ^ s))); [right; lia|].
  destruct (Z.even (n / 2 ^ s)); [left|right]; lia.
Qed.

Lemma nearest_even_down n s :
  2 * (n mod 2 ^ s) < 2 ^ s -> nearest_even n s = n / 2 ^ s.
Proof.
  intros H. unfold nearest_even.
  destruct (Z.ltb_spec (2 * (n mod 2 ^ s)) (2 ^ s)); [reflexivity|lia].
Qed.

(** The exponent chosen by [round53] for a product [b * 0.02]. *)
Lemma product_exponent b :
  0 < b < 2 ^ 53 ->
  let n := b * lit_0_02 in
  let s := Z.max 0 (Z.log2 n - 52) in
  0 <= s <= 53 /\ 2 ^ s * 2 ^ 52 <= n < 2 ^ s * 2 ^ 53.
Proof.
  intros Hb n s.
  assert (Hn : 2 ^ 52 <= n < 2 ^ 106).
  { subst n. unfold lit_0_02.
    change (2 ^ 52) with 4503599627370496.
    change (2 ^ 106) with (2 ^ 53 * 2 ^ 53).
    change (2 ^ 53) with 9007199254740992 in *. nia. }
  assert (Hpos : 0 < n) by (change (2 ^ 52) with 4503599627370496 in Hn; lia).
  assert (Hlo : 52 <= Z.log2 n) by (apply Z.log2_le_pow2; lia).
  assert (Hhi : Z.log2 n < 106) by (apply Z.log2_lt_pow2; lia).
  pose proof (Z.log2_spec n Hpos) as Hspec.
  assert (Hs : s = Z.log2 n - 52) by (subst s; lia).
  split; [lia|].
  rewrite Hs.
  rewrite <- !Z.pow_add_r by lia.
  replace (Z.log2 n - 52 + 52) with (Z.log2 n) by lia.
  replace (Z.log2 n - 52 + 53) with (Z.succ (Z.log2 n)) by lia.
  exact Hspec.
Qed.

Lemma ceil_mul_0_02 b :
  0 < b < 2 ^ 53 ->
  ceil (mul_0_02 b) = (b + 49) / 50.
Proof.
  intros Hb.
  destruct (product_exponent b Hb) as [Hs Hn].
  unfold mul_0_02, round53.
  set (n := b * lit_0_02) in *.
  set (s := Z.max 0 (Z.log2 n - 52)) in *.
  assert (HP : 0 < 2 ^ s) by (apply Z.pow_pos_nonneg; lia).
  assert (HD : 2 ^ s * 2 ^ (58 - s) = 2 ^ 58).
  { rewrite <- Z.pow_add_r by lia. f_equal. lia. }
  assert (HDpos : 0 < 2 ^ (58 - s)) by (apply Z.pow_pos_nonneg; lia).
  assert (HP53 : 2 ^ s <= 2 ^ 53) by (apply Z.pow_le_mono_r; lia).
  pose proof (Z.div_mod n (2 ^ s) ltac:(lia)) as Hdm.
  pose proof (Z.mod_pos_bound n (2 ^ s) HP) as Hr.
  pose proof (nearest_even_cases n s ltac:(lia) ltac:(lia)) as Hne.
  pose proof (nearest_even_down n s) as Hdown.
  set (k := (b + 49) / 50).
  assert (Hk : exists j, b = 50 * k - j /\ 0 <= j < 50).
  { exists (50 * k - b). subst k. pose proof (Z.div_mod (b + 49) 50 ltac:(lia)).
    pose proof (Z.mod_pos_bound (b + 49) 50 ltac:(lia)). lia. }
  destruct Hk as (j & Hbj & Hj).
  assert (Hnk : n = k * 2 ^ 58 + 6 * k - j * lit_0_02).
  { subst n. rewrite Hbj. unfold lit_0_02. change (2 ^ 58) with 288230376151711744. lia. }
  remember (nearest_even n s) as q' eqn:Eq'.
  remember (n / 2 ^ s) as q eqn:Eq.
  remember (n mod 2 ^ s) as r eqn:Er.
  remember (2 ^ (58 - s)) as D eqn:ED.
  remember (2 ^ s) as P eqn:EP.
  clear Eq' Eq Er ED EP.
  unfold lit_0_02 in *.
  change (2 ^ 52) with 4503599627370496 in *.
  change (2 ^ 53) with 9007199254740992 in *.
  assert (Hbounds : (k - 1) * 2 ^ 58 < q' * P <= k * 2 ^ 58).
  { change (2 ^ 58) with 288230376151711744 in *.
    split.
    - (* the rounded value stays above k - 1 *)
      assert (2 * (q' * P) >= 2 * n - P) by (destruct Hne as [[-> ?]|[-> ?]]; nia).
      lia.
    - destruct (Z.eq_dec j 0) as [->|Hj0].
      + assert (Hq : q = k * D /\ r = 6 * k).
        { assert (0 <= 6 * k < P) by lia.
          assert (P * q + r = P * (k * D) + 6 * k) by nia.
          assert (q = k * D) by nia. split; [assumption|nia]. }
        destruct Hq as [-> ->].
        rewrite Hdown by lia. nia.
      + assert (q < k * D) by nia.
        destruct Hne as [[-> ?]|[-> ?]]; nia. }
  unfold ceil, lit_scale.
  change (2 ^ 58) with 288230376151711744 in *.
  pose proof (Z.div_mod (- (q' * P)) 288230376151711744 ltac:(lia)).
  pose proof (Z.mod_pos_bound (- (q' * P)) 288230376151711744 ltac:(lia)).
  lia.
Qed.


(** [0.02] denotes the double nearest to 1/50: a 53-bit significand at
    distance less than half a unit from [2^58 / 50]. *)
Lemma lit_0_02_nearest :
  2 ^ 52 <= lit_0_02 < 2 ^ 53
  /\ 2 * Z.abs (50 * lit_0_02 - 2 ^ lit_scale) < 50.
Proof. vm_compute. repeat split; congruence. Qed.

Lemma exact_ceil_two_percent_eq b :
  exact_ceil_two_percent b = (b + 49) / 50.
Proof.
  unfold exact_ceil_two_percent.
  pose proof (Z.div_mod (- (b * 2)) 100 ltac:(lia)).
  pose proof (Z.mod_pos_bound (- (b * 2)) 100 ltac:(lia)).
  pose proof (Z.div_mod (b + 49) 50 ltac:(lia)).
  pose proof (Z.mod_pos_bound (b + 49) 50 ltac:(lia)).
  lia.
Qed.

(** Every integer below [2^53] in magnitude is held exactly. *)
Lemma representable_safe b : - 2 ^ 53 < b < 2 ^ 53 -> representable b.
Proof.
  intros Hb. unfold representable, round53.
  assert (Habs : 0 <= Z.abs b < 2 ^ 53) by lia.
  assert (Hs : Z.max 0 (Z.log2 (Z.abs b) - 52) = 0).
  { destruct (Z.eq_dec (Z.abs b) 0) as [->|Hnz]; [reflexivity|].
    assert (Z.log2 (Z.abs b) < 53) by (apply Z.log2_lt_pow2; lia). lia. }
  rewrite Hs. unfold nearest_even.
  change (2 ^ 0) with 1. rewrite Z.mod_1_r, Z.div_1_r.
  change (2 * 0 <? 1) with true. cbv iota. lia.
Qed.

End Float64Facts.

(** C7, on the integers a JavaScript number counts without gaps.  For
    every integer closing balance [b] with [|b| < 2^53] the code returns 0
    if [b <= 0], [b] if [0 < b < 2500], and otherwise the greater of 2500
    and the exact ceiling of two percent of [b]: on this range the rounded
    product [b * 0.02] has the same ceiling as the exact one. *)
Theorem C7_minimum_payment_on_safe_integers b :
  - 2 ^ 53 < b < 2 ^ 53 ->
  calculateMinimumPayment b = minimumPayment_spec b.
Proof.
  intros Hb. unfold calculateMinimumPayment, minimumPayment_spec.
  destruct (Z.leb_spec b 0) as [Hle|Hpos]; [reflexivity|].
  destruct (Z.ltb_spec b 2500); [reflexivity|].
  rewrite ceil_mul_0_02 by lia.
  rewrite exact_ceil_two_percent_eq. reflexivity.
Qed.

(** A balance exactly at the floor owes the floor. *)
Example calculateMinimumPayment_at_floor : calculateMinimumPayment 2500 = 2500.
Proof. vm_compute. reflexivity. Qed.

Example calculateMinimumPayment_48000 : calculateMinimumPayment 48000 = 2500.
Proof. vm_compute. reflexivity. Qed.

Example calculateMinimumPayment_above_floor :
  calculateMinimumPayment 125001 = 2501.
Proof. vm_compute. reflexivity. Qed.

(** C7 as stated, for every integer, fails: 30000000000000052 is an
    integer that a double holds exactly; two percent of it is
    600000000000001.04, whose ceiling is 600000000000002, but the product
    with the double 0.02 rounds down to 600000000000001. *)
Lemma C7_product_rounds_below_the_ceiling :
  Float64.representable 30000000000000052
  /\ calculateMinimumPayment 30000000000000052 = 600000000000001
  /\ minimumPayment_spec 30000000000000052 = 600000000000002
  /\ calculateMinimumPayment 30000000000000052
     <> minimumPayment_spec 30000000000000052.
Proof. vm_compute. repeat split; congruence. Qed.

(* ===================================================================== *)
(** * Statements *)
(* ===================================================================== *)

Section Sorting.

Context {A : Type} (key : A -> Z).

Lemma sorted_insert_perm (x : A) (l : list A) :
  sorted_insert (descending key) x l ≡ₚ x :: l.
Proof.
  induction l as [|y l IH]; cbn; [reflexivity|].
  destruct (descending key x y <=? 0); [reflexivity|].
  rewrite IH. apply Permutation_swap.
Qed.

Lemma Array_sort_perm (l : list A) : Array_sort (descending key) l ≡ₚ l.
Proof.
  induction l as [|x l IH]; cbn; [reflexivity|].
  rewrite sorted_insert_perm, IH. reflexivity.
Qed.

Lemma head_sorted_insert (x : A) (l : list A) :
  head (sorted_insert (descending key) x l)
  = match head l with
    | None => Some x
    | Some y => if key y <=? key x then Some x else Some y
    end.
Proof.
  destruct l as [|y l]; cbn; [reflexivity|].
  unfold descending.
  destruct (Z.leb_spec (key y - key x) 0), (Z.leb_spec (key y) (key x));
    try lia; reflexivity.
Qed.


End Sorting.

Section Statements.

Variable addDays : Date -> Z -> Date.

Implicit Types (db : Store) (accountId : string).

















End Statements.



(* ===================================================================== *)
(** * Repeated submissions of one identifier *)
(* ===================================================================== *)

Section Resubmission.

Import Interleaving.

Implicit Types (db : Store) (payload : Payload.t) (c : Call).

Lemma run_alone_Done fuel c db response :
  run_alone fuel c db (Done response) = (db, Done response).
Proof. induction fuel as [|fuel IH]; [reflexivity|exact IH]. Qed.

(** X11.  A call that runs alone goes through at most eight resumptions and
    computes [handleTransactionWebhook]. *)
Lemma run_alone_handle c db fuel :
  (8 <= fuel)%nat ->
  run_alone fuel c db Start
  = let out :=
      handleTransactionWebhook db (call_payload c) (call_tCreated c) (call_tUpdated c) in
    (out.1, Done out.2).
Proof.
  intros Hfuel.
  do 8 (destruct fuel as [|fuel]; [lia|]). clear Hfuel.
  cbn zeta.
  unfold handleTransactionWebhook, processTransaction.
  unfold transactionsDb.findById, cardsDb.findById, accountsDb.findById.
  destruct (transactions db !! Payload.id (call_payload c)) as [old|] eqn:Hid;
    [|destruct (cards db !! Payload.card_id (call_payload c)) as [card|] eqn:Hcard;
      [destruct (negb (card_is_active (Card.status card))) eqn:Hst;
       [|destruct (accounts db !! Card.accountId card) as [account|] eqn:Hacc;
         [destruct (negb (account_is_active (Account.status account))) eqn:Hast;
          [|destruct (Account.creditLimit account
                        <? Float64.add (Account.currentBalance account)
                             (Payload.amount (call_payload c))) eqn:Hcredit;
            [|destruct (exceedsCardLimit card (Payload.amount (call_payload c)))
                eqn:Hlimit]]|]]|]];
    do 8 (cbn [run_alone step deny ApprovalResult.card ApprovalResult.approved
               fst snd default from_option id];
          unfold record, transactionsDb.findById, cardsDb.findById,
            accountsDb.findById;
          rewrite ?Hid, ?Hcard, ?Hst, ?Hacc, ?Hast, ?Hcredit, ?Hlimit);
    rewrite ?run_alone_Done; reflexivity.
Qed.

(** A known identifier: the store is returned as it is, with the
    recorded verdict. *)
Lemma handleTransactionWebhook_old db payload tCreated tUpdated existing :
  transactions db !! Payload.id payload = Some existing ->
  handleTransactionWebhook db payload tCreated tUpdated
  = (db, WebhookResponse.mk (is_approved (Transaction.status existing))).
Proof.
  intros Hold. unfold handleTransactionWebhook.
  rewrite (processTransaction_replay _ _ _ Hold).
  unfold transactionsDb.findById. rewrite Hold. reflexivity.
Qed.

(** After the handler a record of the identifier exists, and the response
    is its verdict. *)
Lemma handleTransactionWebhook_verdict db payload tCreated tUpdated :
  let out := handleTransactionWebhook db payload tCreated tUpdated in
  exists tx,
    transactions out.1 !! Payload.id payload = Some tx
    /\ out.2 = WebhookResponse.mk (is_approved (Transaction.status tx))
    /\ (transactions out.1 = transactions db
        \/ (transactions db !! Payload.id payload = None
            /\ transactions out.1 = <[Payload.id payload := tx]> (transactions db))).
Proof.
  cbn zeta.
  destruct (transactions db !! Payload.id payload) as [old|] eqn:Hid.
  - rewrite (handleTransactionWebhook_old _ _ _ _ _ Hid). exists old.
    cbn [fst snd]. split; [exact Hid|]. split; [reflexivity|left; reflexivity].
  - destruct (handleTransactionWebhook_transactions db payload tCreated tUpdated)
      as [Hsame|(_ & tx & Hins & _ & Hst)].
    + exfalso. rewrite (handleTransactionWebhook_new _ _ _ _ Hid) in Hsame.
      cbn zeta in Hsame. cbn [fst] in Hsame.
      assert (Hl : transactions db !! Payload.id payload <> None); [|congruence].
      rewrite <- Hsame.
      destruct (ApprovalResult.approved (processTransaction db payload));
        destruct (ApprovalResult.card (processTransaction db payload));
        try destruct (cards db !! Payload.card_id payload);
        unfold accountsDb.updateBalance, transactionsDb.create;
        cbn [accounts transactions set_transactions set_accounts];
        try match goal with
          | |- context [accounts db !! ?k] => destruct (accounts db !! k)
          end;
        cbn [fst transactions set_transactions set_accounts buildTransaction
             Transaction.id];
        rewrite lookup_insert_eq; discriminate.
    + exists tx. rewrite Hins, lookup_insert_eq. split; [reflexivity|].
      split; [|right; split; reflexivity].
      rewrite (handleTransactionWebhook_new _ _ _ _ Hid). cbn zeta. cbn [snd].
      rewrite Hst.
      destruct (ApprovalResult.approved (processTransaction db payload));
        reflexivity.
Qed.

(** One run of the handler changes the accounts by at most one
    [updateBalance] with the payload amount. *)
Lemma handleTransactionWebhook_accounts db payload tCreated tUpdated :
  let out := handleTransactionWebhook db payload tCreated tUpdated in
  accounts out.1 = accounts db
  \/ exists key account,
       accounts db !! key = Some account
       /\ accounts out.1
          = <[key := charged account (Payload.amount payload) tUpdated]> (accounts db).
Proof.
  cbn zeta. unfold handleTransactionWebhook.
  destruct (transactionsDb.findById db (Payload.id payload)); [left; reflexivity|].
  destruct (ApprovalResult.approved (processTransaction db payload));
    [|left; reflexivity].
  match goal with
  | |- context [match ?card with Some c => _ | None => _ end] =>
      destruct card as [c|]; [|left; reflexivity]
  end.
  unfold accountsDb.updateBalance, transactionsDb.create.
  cbn [accounts set_transactions].
  destruct (accounts db !! Card.accountId c) as [account|] eqn:Hacc;
    [|left; reflexivity].
  right. exists (Card.accountId c), account. split; [exact Hacc|reflexivity].
Qed.

(** Once the identifier is recorded, further submissions of it answer the
    recorded verdict and change nothing. *)
Lemma submitSequentially_old db (calls : list Call) id existing :
  transactions db !! id = Some existing ->
  Forall (fun c => Payload.id (call_payload c) = id) calls ->
  submitSequentially db calls
  = (db, replicate (length calls)
           (WebhookResponse.mk (is_approved (Transaction.status existing)))).
Proof.
  intros Hold Hall. induction Hall as [|c calls Hc Hall IH]; [reflexivity|].
  cbn [submitSequentially].
  rewrite (handleTransactionWebhook_old _ _ _ _ existing) by (rewrite Hc; exact Hold).
  rewrite IH. reflexivity.
Qed.

(** ** Any interleaving leaves a record *)

Lemma updateBalance_transactions db key amount now :
  transactions (accountsDb.updateBalance db key amount now).1 = transactions db.
Proof.
  unfold accountsDb.updateBalance. destruct (accounts db !! key); reflexivity.
Qed.

Lemma record_transactions c db result card key :
  transactions (record c db result card).1 !! key
  = if decide (Payload.id (call_payload c) = key)
    then Some (buildTransaction (call_payload c) result card (call_tCreated c))
    else transactions db !! key.
Proof.
  unfold record, transactionsDb.create.
  cbn [fst transactions set_transactions buildTransaction Transaction.id].
  apply lookup_insert.
Qed.

(** A resumption keeps every record or writes the one of its call. *)
Lemma step_transactions c db t key :
  transactions (step c db t).1 !! key = transactions db !! key
  \/ (Payload.id (call_payload c) = key
      /\ is_Some (transactions (step c db t).1 !! key)
      /\ seen (step c db t).2 = true).
Proof.
  assert (Hrec : forall result card,
            transactions (record c db result card).1 !! key = transactions db !! key
            \/ (Payload.id (call_payload c) = key
                /\ is_Some (transactions (record c db result card).1 !! key)
                /\ seen (record c db result card).2 = true)).
  { intros result card. rewrite record_transactions.
    case_decide; [right|left; reflexivity].
    split; [assumption|]. split; [eexists|]; reflexivity. }
  destruct t as [|[e|]|[card|]|card [a|]|r|r [e|]|r card|r [card|]|r|r];
    cbn [step]; try apply Hrec; try (left; reflexivity).
  - destruct (negb _); left; reflexivity.
  - repeat match goal with |- context [if ?b then _ else _] => destruct b end;
      left; reflexivity.
  - destruct (ApprovalResult.card r); [apply Hrec|left; reflexivity].
  - destruct (ApprovalResult.approved r); [|left; reflexivity].
    cbn [fst]. rewrite updateBalance_transactions. left; reflexivity.
  - destruct (ApprovalResult.approved r); left; reflexivity.
Qed.

(** A call is in a [seen] state only while a record of its identifier is
    in the store it last looked at. *)
Lemma step_seen c db t :
  (seen t = true -> is_Some (transactions db !! Payload.id (call_payload c))) ->
  seen (step c db t).2 = true ->
  is_Some (transactions (step c db t).1 !! Payload.id (call_payload c)).
Proof.
  intros Hseen.
  assert (Hrec : forall result card,
            is_Some (transactions (record c db result card).1
                       !! Payload.id (call_payload c))).
  { intros result card. rewrite record_transactions.
    rewrite decide_True by reflexivity. eexists; reflexivity. }
  assert (Hfind : forall (k : option Transaction.t -> CallState),
            (forall e, seen (k e) = is_Some_bool e) ->
            seen (k (transactionsDb.findById db (Payload.id (call_payload c)))) = true ->
            is_Some (transactions db !! Payload.id (call_payload c))).
  { intros k Hk. rewrite Hk. unfold transactionsDb.findById.
    destruct (transactions db !! _); [eexists; reflexivity|discriminate]. }
  destruct t as [|[e|]|[card|]|card [a|]|r|r [e|]|r card|r [card|]|r|r];
    cbn [step].
  - apply (Hfind PT_existing). intros [e|]; reflexivity.
  - discriminate.
  - discriminate.
  - destruct (negb _); discriminate.
  - discriminate.
  - repeat match goal with |- context [if ?b then _ else _] => destruct b end;
      discriminate.
  - discriminate.
  - apply (Hfind (H_existing r)). intros [e|]; reflexivity.
  - intros _. apply Hseen. reflexivity.
  - destruct (ApprovalResult.card r); [intros _; apply Hrec|discriminate].
  - intros _. apply Hrec.
  - intros _. destruct (ApprovalResult.approved r); cbn [fst];
      rewrite ?updateBalance_transactions; apply Hseen; reflexivity.
  - intros _. destruct (ApprovalResult.approved r); apply Hseen; reflexivity.
  - intros _. apply Hseen. reflexivity.
  - intros _. apply Hseen. reflexivity.
Qed.

Lemma resume_inv id i sys : system_inv id sys -> system_inv id (resume i sys).
Proof.
  intros Hinv. unfold resume.
  destruct (in_flight sys !! i) as [[c t]|] eqn:Hi; [|exact Hinv].
  destruct (step c (store sys) t) as [db' t'] eqn:Hstep.
  unfold system_inv. cbn [store in_flight].
  assert (Hct : call_inv id (store sys) (c, t)).
  { unfold system_inv in Hinv. rewrite Forall_lookup in Hinv. exact (Hinv i _ Hi). }
  destruct Hct as [Hid Hseen]. cbn [fst snd] in Hid, Hseen.
  assert (Hmono : is_Some (transactions (store sys) !! id) ->
                  is_Some (transactions db' !! id)).
  { intros Hsome.
    destruct (step_transactions c (store sys) t id) as [Heq|(_ & Hnew & _)];
      rewrite Hstep in *; cbn [fst] in *; [rewrite Heq; exact Hsome|exact Hnew]. }
  apply Forall_insert.
  - eapply Forall_impl; [exact Hinv|].
    intros [c2 t2] [Hid2 Hseen2]. split; [exact Hid2|].
    intros Hs. apply Hmono, Hseen2, Hs.
  - split; [exact Hid|]. cbn [fst snd]. intros Hs.
    pose proof (step_seen c (store sys) t) as Hstep_seen.
    rewrite Hstep, Hid in Hstep_seen. cbn [fst snd] in Hstep_seen.
    apply Hstep_seen; assumption.
Qed.

Lemma run_inv id schedule sys : system_inv id sys -> system_inv id (run schedule sys).
Proof.
  revert sys. induction schedule as [|i schedule IH]; intros sys Hinv; [exact Hinv|].
  apply IH, resume_inv, Hinv.
Qed.

Lemma submitAll_inv id db (calls : list Call) :
  Forall (fun c => Payload.id (call_payload c) = id) calls ->
  system_inv id (submitAll db calls).
Proof.
  intros Hall. unfold system_inv, submitAll. cbn [store in_flight].
  apply Forall_fmap. eapply Forall_impl; [exact Hall|].
  intros c Hc. split; [exact Hc|]. discriminate.
Qed.

Lemma run_length schedule sys : length (in_flight (run schedule sys)) = length (in_flight sys).
Proof.
  revert sys. induction schedule as [|i schedule IH]; intros sys; [reflexivity|].
  cbn [run foldl]. fold (run schedule (resume i sys)). rewrite IH.
  unfold resume. destruct (in_flight sys !! i) as [[c t]|]; [|reflexivity].
  destruct (step c (store sys) t). cbn [in_flight]. apply length_insert.
Qed.

(** Whatever the order of the resumptions, once every call of the
    identifier has answered, a record of the identifier is in the store. *)
Lemma interleaved_record_exists db (calls : list Call) id schedule :
  calls <> [] ->
  Forall (fun c => Payload.id (call_payload c) = id) calls ->
  all_done (run schedule (submitAll db calls)) ->
  is_Some (transactions (store (run schedule (submitAll db calls))) !! id).
Proof.
  intros Hne Hall Hdone.
  pose proof (run_inv id schedule _ (submitAll_inv id db calls Hall)) as Hinv.
  pose proof (run_length schedule (submitAll db calls)) as Hlen.
  unfold system_inv in Hinv. unfold all_done in Hdone.
  destruct (in_flight (run schedule (submitAll db calls))) as [|[c t] rest].
  - unfold submitAll in Hlen. cbn [in_flight] in Hlen. rewrite length_fmap in Hlen.
    destruct calls; [contradiction|discriminate].
  - apply Forall_cons_1 in Hinv, Hdone.
    destruct Hinv as [[_ Hseen] _], Hdone as [[r Hr] _].
    apply Hseen. unfold response_of in Hr. cbn [fst snd] in *.
    destruct t; try discriminate. reflexivity.
Qed.

(** C6, as the code has it.  [n >= 1] submissions of one identifier
    handled one after the other leave exactly one record of it; every
    response is that record's verdict; the store after the last submission
    is the store after the first, whose accounts differ from the initial
    ones by at most one [updateBalance].  When the submissions are
    interleaved, a record of the identifier still exists once all have
    answered. *)
Theorem C6_sequential_resubmissions db (first : Call) (rest : list Call) :
  Forall (fun c => Payload.id (call_payload c) = Payload.id (call_payload first)) rest ->
  let id := Payload.id (call_payload first) in
  let after_first :=
    (handleTransactionWebhook db (call_payload first) (call_tCreated first)
       (call_tUpdated first)).1 in
  let out := submitSequentially db (first :: rest) in
  (exists tx,
     transactions out.1 !! id = Some tx
     /\ out.2 = replicate (S (length rest))
                  (WebhookResponse.mk (is_approved (Transaction.status tx)))
     /\ (transactions out.1 = transactions db
         \/ (transactions db !! id = None
             /\ transactions out.1 = <[id := tx]> (transactions db))))
  /\ out.1 = after_first
  /\ (accounts out.1 = accounts db
      \/ exists key account,
           accounts db !! key = Some account
           /\ accounts out.1
              = <[key := charged account (Payload.amount (call_payload first))
                           (call_tUpdated first)]> (accounts db))
  /\ (forall schedule,
        let final := run schedule (submitAll db (first :: rest)) in
        all_done final -> is_Some (transactions (store final) !! id)).
Proof.
  intros Hsame. cbn zeta.
  pose proof (handleTransactionWebhook_verdict db (call_payload first)
                (call_tCreated first) (call_tUpdated first)) as Hverdict.
  pose proof (handleTransactionWebhook_accounts db (call_payload first)
                (call_tCreated first) (call_tUpdated first)) as Haccounts.
  cbn zeta in Hverdict, Haccounts.
  cbn [submitSequentially].
  destruct (handleTransactionWebhook db (call_payload first) (call_tCreated first)
              (call_tUpdated first)) as [db1 r1].
  cbn [fst snd] in *.
  destruct Hverdict as (tx & Hlook & Hr1 & Htxs).
  rewrite (submitSequentially_old db1 rest _ tx Hlook Hsame). cbn [fst snd].
  split; [|split; [reflexivity|split; [exact Haccounts|]]].
  - exists tx. split; [exact Hlook|]. split; [|exact Htxs].
    rewrite Hr1. reflexivity.
  - intros schedule. apply interleaved_record_exists; [discriminate|].
    constructor; [reflexivity|exact Hsame].
Qed.

(** C6 as stated fails for interleaved submissions.  Two calls for [T1]
    (50000 on an account with balance 0 and limit 100000) are started
    together and resumed in turn, as two calls made before either is
    awaited are.  Both find no record, both are approved, both write the
    record and both add the amount: one record is left and both responses
    are its verdict, but the balance ends at 100000, where the same two
    submissions handled one after the other leave 50000. *)
Lemma C6_interleaved_submissions_are_charged_twice :
  let call := mkCall Scenario.T1 1000 1001 in
  let in_turn := run [0; 1; 0; 1; 0; 1; 0; 1; 0; 1; 0; 1; 0; 1; 0; 1]%nat
                   (submitAll Scenario.db0 [call; call]) in
  responses in_turn
    = [Some (WebhookResponse.mk true); Some (WebhookResponse.mk true)]
  /\ Transaction.status <$> transactions (store in_turn) !! "T1" = Some approved
  /\ Account.currentBalance <$> accounts Scenario.db0 !! "A1" = Some 0
  /\ Account.currentBalance <$> accounts (store in_turn) !! "A1" = Some 100000
  /\ Account.currentBalance
       <$> accounts (submitSequentially Scenario.db0 [call; call]).1 !! "A1"
     = Some 50000.
Proof. vm_compute. repeat split; reflexivity. Qed.

(** With a store whose answers arrive late a call can be overtaken: two
    calls for 60000, the second resumed after the first has finished except
    for its own first look-up, answer approved and refused while the record
    says approved. *)
Example overtaken_submission_disagrees_with_the_record :
  let call := mkCall Scenario.T2 1000 1001 in
  let overtaken := run [1; 0; 0; 0; 0; 0; 0; 0; 0; 1; 1; 1; 1; 1; 1; 1]%nat
                     (submitAll Scenario.db0 [call; call]) in
  responses overtaken
    = [Some (WebhookResponse.mk true); Some (WebhookResponse.mk false)]
  /\ Transaction.status <$> transactions (store overtaken) !! "T2" = Some approved
  /\ Account.currentBalance <$> accounts (store overtaken) !! "A1" = Some 60000.
Proof. vm_compute. repeat split; reflexivity. Qed.

End Resubmission.

(* ===================================================================== *)
(** * The scenarios of the specification, and the theorems at concrete
      inputs *)
(* ===================================================================== *)

Section Scenarios.

Import Scenario.

(** [T1] for 50000 is approved and the balance becomes 50000. *)
Example scenario_T1_approved :
  (handleTransactionWebhook db0 T1 1000 1001).2 = WebhookResponse.mk true
  /\ Account.currentBalance <$> accounts db1 !! "A1" = Some 50000
  /\ transactions db1 !! "T1" = Some T1_record.
Proof. vm_compute. repeat split; reflexivity. Qed.

(** [T1] again: approved again, and the balance stays at 50000. *)
Example scenario_T1_resubmitted :
  handleTransactionWebhook db1 T1 2000 2001 = (db1, WebhookResponse.mk true)
  /\ Account.currentBalance <$> accounts db1 !! "A1" = Some 50000.
Proof. vm_compute. repeat split; reflexivity. Qed.

(** [T2] for 60000 on the same account is refused for credit; the balance
    stays at 50000. *)
Example scenario_T2_insufficient_credit :
  processTransaction db1 T2
  = ApprovalResult.mk false (Some insufficient_credit) None None
  /\ (handleTransactionWebhook db1 T2 3000 3001).2 = WebhookResponse.mk false
  /\ Account.currentBalance
       <$> accounts (handleTransactionWebhook db1 T2 3000 3001).1 !! "A1"
     = Some 50000.
Proof. vm_compute. repeat split; reflexivity. Qed.

(** 15000 on card [C2], whose limit is 10000, is refused by the card rule
    although the account has credit. *)
Example scenario_C2_exceeds_card_limit :
  processTransaction db0 (request "T4" "C2" 15000)
  = ApprovalResult.mk false (Some exceeds_card_limit) None None.
Proof. vm_compute. reflexivity. Qed.

(** The statement scenario: opening 40000, total spent 8000, closing 48000,
    minimum payment 2500. *)
Example scenario_statement :
  let statement :=
    (generateStatementForAccount addDays_utc db_statement order_statement "A1" 1000 2000 "S1" 2005).2 in
  Statement.openingBalance statement = 40000
  /\ Statement.totalSpent statement = 8000
  /\ Statement.closingBalance statement = 48000
  /\ Statement.minimumPayment statement = 2500.
Proof. vm_compute. repeat split; reflexivity. Qed.

(** [T1] submitted again to the store that already holds its record. *)
Lemma C1_witness :
  let db := db1 in
  let payload := T1 in
  let existing := T1_record in
  transactions db !! Payload.id payload = Some existing
  /\ Transaction.status existing = approved
  /\ (let out := handleTransactionWebhook db payload 2000 2001 in
      out.2 = WebhookResponse.mk true
      /\ transactions out.1 = transactions db
      /\ (forall id,
            Account.currentBalance <$> accounts out.1 !! id
            = Account.currentBalance <$> accounts db !! id)
      /\ out.1 = db).
Proof.
  cbv zeta.
  assert (Hold : transactions db1 !! Payload.id T1 = Some T1_record)
    by (vm_compute; reflexivity).
  split; [exact Hold|]. split; [reflexivity|].
  exact (C1_resubmission_replays_the_verdict db1 T1 2000 2001 T1_record Hold).
Defined.



(** A request for exactly the credit limit of [A1]. *)
Lemma C4_witness :
  let db := db0 in
  let payload := request "T6" "C1" 100000 in
  transactions db !! Payload.id payload = None
  /\ cards db !! Payload.card_id payload = Some C1
  /\ Card.status C1 = card_active
  /\ accounts db !! Card.accountId C1 = Some A1
  /\ Account.status A1 = account_active
  /\ Z.abs (Account.currentBalance A1 + Payload.amount payload) <= 2 ^ 53
  /\ Account.currentBalance A1 + Payload.amount payload = Account.creditLimit A1
  /\ ApprovalResult.reason (processTransaction db payload) <> Some insufficient_credit
  /\ processTransaction db payload = ApprovalResult.mk true None (Some C1) (Some A1).
Proof.
  cbv zeta.
  assert (Hnew : transactions db0 !! Payload.id (request "T6" "C1" 100000) = None)
    by (vm_compute; reflexivity).
  assert (Hcard : cards db0 !! Payload.card_id (request "T6" "C1" 100000) = Some C1)
    by (vm_compute; reflexivity).
  assert (Hacc : accounts db0 !! Card.accountId C1 = Some A1)
    by (vm_compute; reflexivity).
  assert (Hroom : Z.abs (Account.currentBalance A1
                         + Payload.amount (request "T6" "C1" 100000)) <= 2 ^ 53)
    by (vm_compute; discriminate).
  assert (Heq : Account.currentBalance A1 + Payload.amount (request "T6" "C1" 100000)
                = Account.creditLimit A1) by reflexivity.
  repeat (split; [first [assumption | reflexivity]|]).
  destruct (C4_credit_limit_is_strict db0 (request "T6" "C1" 100000) C1 A1
              Hnew Hcard eq_refl Hacc eq_refl Hroom) as [Hat _].
  destruct (Hat Heq) as [Hreason Happroved].
  split; [exact Hreason|]. apply Happroved. exact I.
Defined.



(** [T1] submitted three times in a row. *)
Lemma C6_witness :
  let first := mkCall T1 1000 1001 in
  let rest := [mkCall T1 2000 2001; mkCall T1 3000 3001] in
  Forall (fun c => Payload.id (call_payload c) = Payload.id (call_payload first)) rest
  /\ (exists tx,
        transactions (submitSequentially db0 (first :: rest)).1 !! "T1" = Some tx
        /\ (submitSequentially db0 (first :: rest)).2
           = replicate 3 (WebhookResponse.mk (is_approved (Transaction.status tx))))
  /\ (submitSequentially db0 (first :: rest)).1 = db1.
Proof.
  cbv zeta.
  assert (Hsame :
    Forall (fun c => Payload.id (call_payload c)
                     = Payload.id (call_payload (mkCall T1 1000 1001)))
      [mkCall T1 2000 2001; mkCall T1 3000 3001])
    by (repeat constructor).
  split; [exact Hsame|].
  destruct (C6_sequential_resubmissions db0 (mkCall T1 1000 1001)
              [mkCall T1 2000 2001; mkCall T1 3000 3001] Hsame)
    as ((tx & Hlook & Hresp & _) & Hstore & _).
  split; [exists tx; split; [exact Hlook|exact Hresp]|exact Hstore].
Defined.

(** The closing balance of the statement scenario. *)
Lemma C7_witness :
  - 2 ^ 53 < 48000 < 2 ^ 53
  /\ calculateMinimumPayment 48000 = minimumPayment_spec 48000.
Proof.
  assert (Hb : - 2 ^ 53 < 48000 < 2 ^ 53) by (split; reflexivity).
  split; [exact Hb|].
  exact (C7_minimum_payment_on_safe_integers 48000 Hb).
Defined.

(** [T1] through the route: its record holds 50000. *)
Lemma C9_witness :
  let db := db0 in
  let payload := T1 in
  exists tx,
    transactions (webhookRoute db payload 1000 1001).1 !! Payload.id payload = Some tx
    /\ Transaction.amount tx = Payload.amount payload.
Proof.
  cbv zeta.
  destruct (C9_stored_amount_is_the_payload_amount db0 T1 1000 1001) as (Hstored & _).
  apply Hstored; [vm_compute; reflexivity|discriminate..].
Defined.

(** A request for 100 on [C3], whose limit is 0. *)
Lemma C10_witness :
  let db := db0 in
  let payload := request "T3" "C3" 100 in
  transactions db !! Payload.id payload = None
  /\ cards db !! Payload.card_id payload = Some C3
  /\ Card.spendingLimit C3 = Some 0
  /\ ApprovalResult.reason (processTransaction db payload) <> Some exceeds_card_limit
  /\ processTransaction db payload = ApprovalResult.mk true None (Some C3) (Some A1).
Proof.
  cbv zeta.
  assert (Hnew : transactions db0 !! Payload.id (request "T3" "C3" 100) = None)
    by (vm_compute; reflexivity).
  assert (Hcard : cards db0 !! Payload.card_id (request "T3" "C3" 100) = Some C3)
    by (vm_compute; reflexivity).
  repeat (split; [first [assumption | reflexivity]|]).
  destruct (C10_zero_limit_skips_the_card_rule db0 (request "T3" "C3" 100) C3
              Hnew Hcard eq_refl) as (_ & Hreason & Happroved).
  split; [exact Hreason|].
  apply (Happroved A1); [reflexivity|vm_compute; reflexivity|reflexivity|].
  vm_compute. discriminate.
Defined.

End Scenarios.

(* ===================================================================== *)
(** * The ledger kept by the handler *)
(* ===================================================================== *)

Section Ledger.

Implicit Types (db : Store) (payload : Payload.t) (calls : list Call).

(** The three ways a call of the handler ends: a replay, an approval that
    writes the record and the balance, a refusal that writes the record. *)
Lemma handleTransactionWebhook_cases db payload tCreated tUpdated :
  let out := handleTransactionWebhook db payload tCreated tUpdated in
  (exists existing,
     transactions db !! Payload.id payload = Some existing
     /\ out = (db, WebhookResponse.mk (is_approved (Transaction.status existing))))
  \/ (transactions db !! Payload.id payload = None
      /\ exists card account,
           cards db !! Payload.card_id payload = Some card
           /\ Card.status card = card_active
           /\ accounts db !! Card.accountId card = Some account
           /\ Account.status account = account_active
           /\ Float64.add (Account.currentBalance account) (Payload.amount payload)
              <= Account.creditLimit account
           /\ exceedsCardLimit card (Payload.amount payload) = false
           /\ processTransaction db payload
              = ApprovalResult.mk true None (Some card) (Some account)
           /\ out
              = (mkStore
                   (<[Card.accountId card :=
                        charged account (Payload.amount payload) tUpdated]>
                      (accounts db))
                   (cards db)
                   (<[Payload.id payload :=
                        buildTransaction payload
                          (ApprovalResult.mk true None (Some card) (Some account))
                          (Some card) tCreated]> (transactions db))
                   (statements db),
                 WebhookResponse.mk true))
  \/ (transactions db !! Payload.id payload = None
      /\ exists reason,
           processTransaction db payload = deny reason
           /\ out
              = (set_transactions db
                   (<[Payload.id payload :=
                        buildTransaction payload (deny reason)
                          (cards db !! Payload.card_id payload) tCreated]>
                      (transactions db)),
                 WebhookResponse.mk false)).
Proof.
  cbn zeta.
  destruct (transactions db !! Payload.id payload) as [existing|] eqn:Hid.
  { left. exists existing. split; [reflexivity|].
    apply handleTransactionWebhook_old, Hid. }
  right.
  rewrite (handleTransactionWebhook_new _ _ _ _ Hid). cbn zeta.
  rewrite (processTransaction_new _ _ Hid).
  assert (Hdeny : forall reason,
    (match ApprovalResult.approved (deny reason),
           match ApprovalResult.card (deny reason) with
           | Some c => Some c
           | None => cards db !! Payload.card_id payload
           end
     with
     | true, Some c =>
         (accountsDb.updateBalance
            (transactionsDb.create db
               (buildTransaction payload (deny reason)
                  match ApprovalResult.card (deny reason) with
                  | Some c => Some c
                  | None => cards db !! Payload.card_id payload
                  end tCreated))
            (Card.accountId c) (Payload.amount payload) tUpdated).1
     | _, _ =>
         transactionsDb.create db
           (buildTransaction payload (deny reason)
              match ApprovalResult.card (deny reason) with
              | Some c => Some c
              | None => cards db !! Payload.card_id payload
              end tCreated)
     end,
     WebhookResponse.mk (ApprovalResult.approved (deny reason)))
    = (set_transactions db
         (<[Payload.id payload :=
              buildTransaction payload (deny reason)
                (cards db !! Payload.card_id payload) tCreated]> (transactions db)),
       WebhookResponse.mk false)).
  { intros reason. reflexivity. }
  destruct (cards db !! Payload.card_id payload) as [card|] eqn:Hcard.
  2:{ right. split; [reflexivity|]. exists card_not_found.
      split; [reflexivity|]. rewrite Hdeny. reflexivity. }
  destruct (Card.status card) eqn:Hst; cbn [negb card_is_active].
  2,3: right; split; [reflexivity|]; exists card_not_active;
       split; [reflexivity|]; rewrite Hdeny; reflexivity.
  destruct (accounts db !! Card.accountId card) as [account|] eqn:Hacc.
  2:{ right. split; [reflexivity|]. exists account_not_found.
      split; [reflexivity|]. rewrite Hdeny. reflexivity. }
  destruct (Account.status account) eqn:Hast; cbn [negb account_is_active].
  2,3: right; split; [reflexivity|]; exists account_not_active;
       split; [reflexivity|]; rewrite Hdeny; reflexivity.
  destruct (Z.ltb_spec (Account.creditLimit account)
              (Float64.add (Account.currentBalance account) (Payload.amount payload))).
  { right. split; [reflexivity|]. exists insufficient_credit.
    split; [reflexivity|]. rewrite Hdeny. reflexivity. }
  destruct (exceedsCardLimit card (Payload.amount payload)) eqn:Hlimit.
  { right. split; [reflexivity|]. exists exceeds_card_limit.
    split; [reflexivity|]. rewrite Hdeny. reflexivity. }
  left. split; [reflexivity|]. exists card, account.
  repeat (split; [first [assumption | reflexivity | lia]|]).
  cbn [ApprovalResult.approved ApprovalResult.card].
  unfold accountsDb.updateBalance, transactionsDb.create.
  cbn [accounts set_transactions]. rewrite Hacc. reflexivity.
Qed.

(** A property kept by every call is kept by calls made one after the
    other. *)
Lemma submitSequentially_invariant (P : Store -> Prop) :
  (forall db payload tCreated tUpdated,
     P db -> P (handleTransactionWebhook db payload tCreated tUpdated).1) ->
  forall calls db, P db -> P (submitSequentially db calls).1.
Proof.
  intros Hstep calls. induction calls as [|c calls IH]; intros db HP; [exact HP|].
  cbn [submitSequentially].
  specialize (Hstep db (call_payload c) (call_tCreated c) (call_tUpdated c) HP).
  destruct (handleTransactionWebhook db (call_payload c) (call_tCreated c)
              (call_tUpdated c)) as [db1 r].
  specialize (IH db1 Hstep).
  destruct (submitSequentially db1 calls) as [db2 rs]. exact IH.
Qed.


(** X5.  A refused request changes no account, card or statement; it leaves a
    denied record that carries the reason, the payload's amount and the
    account of the card, or ["unknown"] when the card is not known. *)
Theorem refused_request_is_recorded_and_costs_nothing db payload tCreated tUpdated :
  transactions db !! Payload.id payload = None ->
  ApprovalResult.approved (processTransaction db payload) = false ->
  let out := handleTransactionWebhook db payload tCreated tUpdated in
  out.2 = WebhookResponse.mk false
  /\ accounts out.1 = accounts db
  /\ cards out.1 = cards db
  /\ statements out.1 = statements db
  /\ exists reason tx,
       ApprovalResult.reason (processTransaction db payload) = Some reason
       /\ transactions out.1 = <[Payload.id payload := tx]> (transactions db)
       /\ Transaction.status tx = denied
       /\ Transaction.denialReason tx = Some reason
       /\ Transaction.amount tx = Payload.amount payload
       /\ Transaction.createdAt tx = tCreated
       /\ Transaction.accountId tx
          = match cards db !! Payload.card_id payload with
            | Some card => Card.accountId card
            | None => "unknown"
            end.
Proof.
  intros Hnew Hdenied. cbn zeta.
  destruct (handleTransactionWebhook_cases db payload tCreated tUpdated)
    as [(existing & Hold & _)|[(_ & card & account & Hyes)|(_ & reason & Hres & Hout)]].
  - congruence.
  - destruct Hyes as (_ & _ & _ & _ & _ & _ & Hres & _).
    rewrite Hres in Hdenied. discriminate.
  - rewrite Hout, Hres. cbn [fst snd].
    repeat (split; [reflexivity|]).
    eexists reason, _. repeat split; reflexivity.
Qed.

(** X6.  Calls handled one after the other never change or remove a record,
    add records only under the identifiers submitted, answer every call,
    and leave cards and statements alone. *)
Theorem sequential_submissions_keep_every_record db calls :
  let out := submitSequentially db calls in
  length out.2 = length calls
  /\ cards out.1 = cards db
  /\ statements out.1 = statements db
  /\ (forall id tx, transactions db !! id = Some tx ->
        transactions out.1 !! id = Some tx)
  /\ (forall id, is_Some (transactions out.1 !! id) ->
        is_Some (transactions db !! id)
        \/ exists c, c ∈ calls /\ Payload.id (call_payload c) = id).
Proof.
  cbn zeta. revert db. induction calls as [|c calls IH]; intros db.
  { cbn. repeat split; try reflexivity; auto. }
  cbn [submitSequentially].
  pose proof (handleTransactionWebhook_transactions db (call_payload c)
                (call_tCreated c) (call_tUpdated c)) as Htxs.
  pose proof (handleTransactionWebhook_cases db (call_payload c)
                (call_tCreated c) (call_tUpdated c)) as Hcases.
  cbn zeta in Htxs, Hcases.
  destruct (handleTransactionWebhook db (call_payload c) (call_tCreated c)
              (call_tUpdated c)) as [db1 r] eqn:Hout.
  specialize (IH db1).
  destruct (submitSequentially db1 calls) as [db2 rs].
  cbn [fst snd] in *.
  destruct IH as (Hlen & Hcards & Hst & Hkeep & Hnew).
  assert (Hframe : cards db1 = cards db /\ statements db1 = statements db).
  { destruct Hcases as [(e & _ & Heq)|[(_ & card & account & Hyes)|(_ & reason & _ & Heq)]].
    - injection Heq as -> _. split; reflexivity.
    - destruct Hyes as (_ & _ & _ & _ & _ & _ & _ & Heq).
      injection Heq as -> _. split; reflexivity.
    - injection Heq as -> _. split; reflexivity. }
  destruct Hframe as [Hc1 Hs1].
  split; [cbn; congruence|]. split; [congruence|]. split; [congruence|].
  split.
  - intros id tx Hlook. apply Hkeep.
    destruct Htxs as [->|(Hfresh & tx0 & -> & _)]; [exact Hlook|].
    rewrite lookup_insert_ne; [exact Hlook|congruence].
  - intros id Hsome. destruct (Hnew id Hsome) as [Hin1|(c' & Hc' & Hid')].
    + destruct Htxs as [Heq|(Hfresh & tx0 & Heq & _)].
      * left. rewrite <- Heq. exact Hin1.
      * rewrite Heq in Hin1. rewrite lookup_insert in Hin1.
        case_decide as Hd; [|left; exact Hin1].
        right. exists c. split; [left|exact Hd].
    + right. exists c'. split; [right; exact Hc'|exact Hid'].
Qed.

(** X7.  However many requests are handled one after the other, no account
    ends above its credit limit, provided none started above it: the
    balance written is the very sum that was tested against the limit. *)
Theorem sequential_submissions_stay_within_limits db calls :
  within_limits db ->
  within_limits (submitSequentially db calls).1.
Proof.
  revert db. apply submitSequentially_invariant.
  intros db payload tCreated tUpdated Hdb.
  destruct (handleTransactionWebhook_cases db payload tCreated tUpdated)
    as [(e & _ & ->)|[(_ & card & account & Hyes)|(_ & reason & _ & ->)]];
    [exact Hdb| |exact Hdb].
  destruct Hyes as (_ & _ & Hacc & _ & Hroom & _ & _ & ->).
  intros key a. cbn [fst accounts]. rewrite lookup_insert.
  case_decide; [|apply Hdb].
  intros [= <-]. cbn [charged Account.currentBalance Account.creditLimit]. exact Hroom.
Qed.



(** X9.  Records written by the handler carry a denial reason exactly when they
    are denied, so a store whose records all do keeps that property. *)
Theorem sequential_submissions_keep_reasons_consistent db calls :
  records_consistent db ->
  records_consistent (submitSequentially db calls).1.
Proof.
  revert db. apply submitSequentially_invariant.
  intros db payload tCreated tUpdated Hdb.
  destruct (handleTransactionWebhook_cases db payload tCreated tUpdated)
    as [(e & _ & ->)|[(_ & card & account & Hyes)|(_ & reason & _ & ->)]];
    [exact Hdb| |].
  - destruct Hyes as (_ & _ & _ & _ & _ & _ & _ & ->).
    intros id tx. cbn [fst transactions]. rewrite lookup_insert.
    case_decide; [|apply Hdb]. intros [= <-]. reflexivity.
  - intros id tx. cbn [fst transactions set_transactions]. rewrite lookup_insert.
    case_decide; [|apply Hdb]. intros [= <-]. reflexivity.
Qed.

End Ledger.

(* ===================================================================== *)
(** * What interleaved calls leave alone *)
(* ===================================================================== *)

Section InterleavedFrame.

Import Interleaving.

Lemma store_frame_refl db : store_frame db db.
Proof. repeat split; auto. Qed.

Lemma store_frame_trans db1 db2 db3 :
  store_frame db1 db2 -> store_frame db2 db3 -> store_frame db1 db3.
Proof.
  intros (Hc & Hs & Ha & Ht) (Hc' & Hs' & Ha' & Ht').
  split; [congruence|]. split; [congruence|].
  split; [intros key; rewrite Ha'; apply Ha|].
  intros id Hsome. apply Ht', Ht, Hsome.
Qed.

Lemma updateBalance_frame db key amount now :
  store_frame db (accountsDb.updateBalance db key amount now).1.
Proof.
  unfold accountsDb.updateBalance.
  destruct (accounts db !! key) as [account|] eqn:Hacc; [|apply store_frame_refl].
  split; [reflexivity|]. split; [reflexivity|]. split; [|auto].
  intros key'. cbn [fst accounts set_accounts]. rewrite lookup_insert.
  case_decide; [|reflexivity]. subst key'. rewrite Hacc. reflexivity.
Qed.

Lemma record_frame c db result card : store_frame db (record c db result card).1.
Proof.
  split; [reflexivity|]. split; [reflexivity|]. split; [reflexivity|].
  intros id Hsome. rewrite record_transactions.
  case_decide; [eexists; reflexivity|exact Hsome].
Qed.

Lemma step_frame c db t : store_frame db (step c db t).1.
Proof.
  destruct t as [|[e|]|[card|]|card [a|]|r|r [e|]|r card|r [card|]|r|r];
    cbn [step]; try apply store_frame_refl; try apply record_frame.
  - destruct (negb _); apply store_frame_refl.
  - repeat match goal with |- context [if ?b then _ else _] => destruct b end;
      apply store_frame_refl.
  - destruct (ApprovalResult.card r); [apply record_frame|apply store_frame_refl].
  - destruct (ApprovalResult.approved r); [|apply store_frame_refl].
    apply updateBalance_frame.
  - destruct (ApprovalResult.approved r); apply store_frame_refl.
Qed.

Lemma resume_frame i sys : store_frame (store sys) (store (resume i sys)).
Proof.
  unfold resume. destruct (in_flight sys !! i) as [[c t]|]; [|apply store_frame_refl].
  pose proof (step_frame c (store sys) t) as Hstep.
  destruct (step c (store sys) t) as [db' t']. exact Hstep.
Qed.

(** A record that every call of its identifier has seen, or will see, is
    not written again. *)
Lemma step_keeps c db t id tx :
  transactions db !! id = Some tx ->
  (Payload.id (call_payload c) = id -> about_to_record t = false) ->
  transactions (step c db t).1 !! id = Some tx
  /\ (Payload.id (call_payload c) = id -> about_to_record (step c db t).2 = false).
Proof.
  intros Hlook Hsafe.
  assert (Hrec : forall result card,
            about_to_record t = true ->
            transactions (record c db result card).1 !! id = Some tx
            /\ (Payload.id (call_payload c) = id ->
                about_to_record (record c db result card).2 = false)).
  { intros result card Hwrite. rewrite record_transactions.
    case_decide as Hid; [rewrite (Hsafe Hid) in Hwrite; discriminate|].
    split; [exact Hlook|reflexivity]. }
  destruct t as [|[e|]|[card|]|card [a|]|r|r [e|]|r card|r [card|]|r|r];
    cbn [step]; try (split; [exact Hlook|reflexivity]);
    try (apply Hrec; reflexivity).
  - destruct (negb _); split; first [exact Hlook|reflexivity].
  - repeat match goal with |- context [if ?b then _ else _] => destruct b end;
      split; first [exact Hlook|reflexivity].
  - split; [exact Hlook|]. intros Hid. cbn [snd].
    unfold transactionsDb.findById. rewrite Hid, Hlook. reflexivity.
  - destruct (ApprovalResult.card r); [apply Hrec; reflexivity|].
    split; [exact Hlook|]. intros Hid. specialize (Hsafe Hid). discriminate.
  - destruct (ApprovalResult.approved r); [|split; [exact Hlook|reflexivity]].
    cbn [fst snd]. rewrite updateBalance_transactions.
    split; [exact Hlook|reflexivity].
  - destruct (ApprovalResult.approved r); split; first [exact Hlook|reflexivity].
Qed.

Lemma resume_keeps id tx i sys : kept_inv id tx sys -> kept_inv id tx (resume i sys).
Proof.
  intros [Hlook Hsafe]. unfold resume.
  destruct (in_flight sys !! i) as [[c t]|] eqn:Hi; [|split; assumption].
  assert (Hct : Payload.id (call_payload c) = id -> about_to_record t = false).
  { rewrite Forall_lookup in Hsafe. exact (Hsafe i _ Hi). }
  destruct (step_keeps c (store sys) t id tx Hlook Hct) as [Hlook' Hct'].
  destruct (step c (store sys) t) as [db' t']. cbn [fst snd] in Hlook', Hct'.
  split; [exact Hlook'|]. cbn [in_flight].
  apply Forall_insert; [exact Hsafe|exact Hct'].
Qed.

Lemma run_keeps id tx schedule sys :
  kept_inv id tx sys -> kept_inv id tx (run schedule sys).
Proof.
  revert sys. induction schedule as [|i schedule IH]; intros sys Hinv; [exact Hinv|].
  apply IH, resume_keeps, Hinv.
Qed.

Lemma submitAll_keeps id tx db (calls : list Call) :
  transactions db !! id = Some tx -> kept_inv id tx (submitAll db calls).
Proof.
  intros Hlook. split; [exact Hlook|]. unfold submitAll. cbn [in_flight].
  apply Forall_fmap, Forall_forall. intros c _ _. reflexivity.
Qed.

(** X10.  In whatever order calls of the handler are resumed, and whatever they
    ask for, the store they leave has the same cards and statements, every
    record that was there before the calls started is still there as it
    was, and every account keeps its identifier, credit limit, status and
    creation date: only balances, update dates and new records differ. *)
Theorem interleaved_calls_change_only_balances_and_records
    (db : Store) (calls : list Call) (schedule : list nat) :
  let final := store (run schedule (submitAll db calls)) in
  cards final = cards db
  /\ statements final = statements db
  /\ (forall key,
        account_terms <$> accounts final !! key
        = account_terms <$> accounts db !! key)
  /\ (forall id tx, transactions db !! id = Some tx ->
        transactions final !! id = Some tx).
Proof.
  cbn zeta.
  assert (Hframe : store_frame db (store (run schedule (submitAll db calls)))).
  { change db with (store (submitAll db calls)) at 1.
    generalize (submitAll db calls).
    induction schedule as [|i schedule IH]; intros sys; [apply store_frame_refl|].
    cbn [run foldl]. fold (run schedule (resume i sys)).
    eapply store_frame_trans; [apply resume_frame|apply IH]. }
  destruct Hframe as (Hcards & Hstatements & Hterms & _).
  repeat (split; [assumption|]).
  intros id tx Hlook.
  apply (run_keeps id tx schedule _ (submitAll_keeps id tx db calls Hlook)).
Qed.

End InterleavedFrame.

(* ===================================================================== *)
(** * Shape of the minimum payment *)
(* ===================================================================== *)

Section MinimumPayment.

Lemma calculateMinimumPayment_safe b :
  - 2 ^ 53 < b < 2 ^ 53 ->
  calculateMinimumPayment b
  = if b <=? 0 then 0
    else if b <? 2500 then b
    else Z.max ((b + 49) / 50) 2500.
Proof.
  intros Hb. unfold calculateMinimumPayment.
  destruct (Z.leb_spec b 0); [reflexivity|].
  destruct (Z.ltb_spec b 2500); [reflexivity|].
  rewrite ceil_mul_0_02 by lia. reflexivity.
Qed.

(** X12.  On the safe integers the minimum payment is never negative and never
    more than what is owed; it is at least two percent of a positive
    balance; and it is the whole balance exactly when the balance is at most
    the floor of 2500. *)
Theorem minimum_payment_is_between_two_percent_and_the_balance b :
  - 2 ^ 53 < b < 2 ^ 53 ->
  0 <= calculateMinimumPayment b <= Z.max 0 b
  /\ (0 < b -> b <= 50 * calculateMinimumPayment b)
  /\ (calculateMinimumPayment b = Z.max 0 b <-> b <= 2500).
Proof.
  intros Hb. rewrite (calculateMinimumPayment_safe b Hb).
  pose proof (Z.div_mod (b + 49) 50 ltac:(lia)) as Hdm.
  pose proof (Z.mod_pos_bound (b + 49) 50 ltac:(lia)) as Hr.
  destruct (Z.leb_spec b 0); [lia|].
  destruct (Z.ltb_spec b 2500); lia.
Qed.

(** X13.  A larger balance never owes a smaller minimum payment. *)
Theorem minimum_payment_is_monotone b1 b2 :
  - 2 ^ 53 < b1 ->
  b1 <= b2 ->
  b2 < 2 ^ 53 ->
  calculateMinimumPayment b1 <= calculateMinimumPayment b2.
Proof.
  intros Hlo Hle Hhi.
  rewrite (calculateMinimumPayment_safe b1) by lia.
  rewrite (calculateMinimumPayment_safe b2) by lia.
  pose proof (Z.div_mod (b1 + 49) 50 ltac:(lia)).
  pose proof (Z.mod_pos_bound (b1 + 49) 50 ltac:(lia)).
  pose proof (Z.div_mod (b2 + 49) 50 ltac:(lia)).
  pose proof (Z.mod_pos_bound (b2 + 49) 50 ltac:(lia)).
  destruct (Z.leb_spec b1 0), (Z.leb_spec b2 0),
    (Z.ltb_spec b1 2500), (Z.ltb_spec b2 2500); lia.
Qed.

End MinimumPayment.

(* ===================================================================== *)
(** * Statements over time *)
(* ===================================================================== *)

Section LatestStatement.

Context {A : Type} (key : A -> Z).

(** Sorting a list with one more element at its end: the new element comes
    first only when its key is strictly the greatest. *)
Lemma head_Array_sort_snoc (l : list A) (x : A) :
  head (Array_sort (descending key) (l ++ [x]))
  = match head (Array_sort (descending key) l) with
    | None => Some x
    | Some m => if key m <? key x then Some x else Some m
    end.
Proof.
  induction l as [|y l IH]; [reflexivity|].
  change (Array_sort (descending key) ((y :: l) ++ [x]))
    with (sorted_insert (descending key) y (Array_sort (descending key) (l ++ [x]))).
  change (Array_sort (descending key) (y :: l))
    with (sorted_insert (descending key) y (Array_sort (descending key) l)).
  rewrite !head_sorted_insert, IH.
  destruct (head (Array_sort (descending key) l)) as [m|];
    repeat (match goal with
            | |- context [?a <? ?b] => destruct (Z.ltb_spec a b)
            | |- context [?a <=? ?b] => destruct (Z.leb_spec a b)
            end; cbv beta iota);
    try lia; reflexivity.
Qed.

End LatestStatement.

Section StatementsOverTime.

Variable addDays : Date -> Z -> Date.

Implicit Types (db : Store) (accountId : string).

Lemma findLatest_create db statement accountId :
  statementsDb.findLatest (statementsDb.create db statement) accountId
  = if bool_decide (Statement.accountId statement = accountId)
    then match statementsDb.findLatest db accountId with
         | None => Some statement
         | Some latest =>
             if Statement.periodEnd latest <? Statement.periodEnd statement
             then Some statement else Some latest
         end
    else statementsDb.findLatest db accountId.
Proof.
  unfold statementsDb.findLatest, statementsDb.create.
  cbn [statements set_statements]. rewrite List.filter_app. cbn [List.filter].
  destruct (bool_decide (Statement.accountId statement = accountId)).
  - fold (descending Statement.periodEnd). apply head_Array_sort_snoc.
  - rewrite app_nil_r. reflexivity.
Qed.





(** X14.  Storing a statement changes the latest statement of its own account
    only, and only when its period ends strictly later than the latest so
    far: with equal period ends the statement stored first stays the
    latest. *)
Theorem a_stored_statement_is_latest_only_if_it_ends_later db statement accountId :
  let db' := statementsDb.create db statement in
  let own := Statement.accountId statement in
  (accountId <> own ->
     statementsDb.findLatest db' accountId = statementsDb.findLatest db accountId)
  /\ (statementsDb.findLatest db own = None ->
      statementsDb.findLatest db' own = Some statement)
  /\ (forall latest,
        statementsDb.findLatest db own = Some latest ->
        statementsDb.findLatest db' own
        = if Statement.periodEnd latest <? Statement.periodEnd statement
          then Some statement else Some latest).
Proof.
  cbn zeta. split; [|split].
  - intros Hother. rewrite findLatest_create.
    rewrite bool_decide_eq_false_2 by congruence. reflexivity.
  - intros Hnone. rewrite findLatest_create, Hnone.
    rewrite bool_decide_eq_true_2 by reflexivity. reflexivity.
  - intros latest Hsome. rewrite findLatest_create, Hsome.
    rewrite bool_decide_eq_true_2 by reflexivity. reflexivity.
Qed.




End StatementsOverTime.

(* ===================================================================== *)
(** * Validation, the route and the rules *)
(* ===================================================================== *)

Section RouteAndRules.

Implicit Types (db : Store) (payload : Payload.t).

(** X1.  What validation accepts, field by field.  A body that is not an object
    gets the single error about the payload.  For an object the errors come
    in the order of the fields: [id], [card_id] and [currency] must be
    non-empty strings, [amount] any number (0 and negative numbers pass),
    [merchant_data] an object ([null] does not pass). *)
Theorem validateWebhookPayload_accepts (body : JsValue) :
  validateWebhookPayload body
  = if is_object body
    then
      ((if is_nonempty_string (property body "id") then []
        else [missing_or_invalid_id])
       ++ (if is_nonempty_string (property body "card_id") then []
           else [missing_or_invalid_card_id])
       ++ (if is_number (property body "amount") then []
           else [missing_or_invalid_amount])
       ++ (if is_nonempty_string (property body "currency") then []
           else [missing_or_invalid_currency])
       ++ (if is_object (property body "merchant_data") then []
           else [missing_or_invalid_merchant_data]))%list
    else [payload_must_be_an_object].
Proof.
  destruct body as [| |b|n|s|fields]; try reflexivity.
  - destruct b; reflexivity.
  - unfold validateWebhookPayload. cbn [truthy typeof JsType_eqb negb orb].
    destruct (n =? 0); reflexivity.
  - unfold validateWebhookPayload. cbn [truthy typeof JsType_eqb negb orb].
    destruct (String.eqb s ""); reflexivity.
  - unfold validateWebhookPayload.
    cbn [truthy typeof JsType_eqb negb orb is_object property].
    assert (Hstring : forall v,
              negb (truthy v) || negb (JsType_eqb (typeof v) type_string)
              = negb (is_nonempty_string v)).
    { intros [| |b|n|s|f]; cbn; try reflexivity.
      - destruct b; reflexivity.
      - destruct (n =? 0); reflexivity.
      - destruct (String.eqb s ""); reflexivity. }
    assert (Hnumber : forall v,
              loosely_null v || negb (JsType_eqb (typeof v) type_number)
              = negb (is_number v)).
    { intros [| |b|n|s|f]; reflexivity. }
    assert (Hobject : forall v,
              negb (truthy v) || negb (JsType_eqb (typeof v) type_object)
              = negb (is_object v)).
    { intros [| |b|n|s|f]; cbn; try reflexivity.
      - destruct b; reflexivity.
      - destruct (n =? 0); reflexivity.
      - destruct (String.eqb s ""); reflexivity. }
    rewrite !Hstring, Hnumber, Hobject. unfold push_if.
    destruct (is_nonempty_string (lookup_field fields "id"));
      destruct (is_nonempty_string (lookup_field fields "card_id"));
      destruct (is_number (lookup_field fields "amount"));
      destruct (is_nonempty_string (lookup_field fields "currency"));
      destruct (is_object (lookup_field fields "merchant_data")); reflexivity.
Qed.

(** X2.  The route fails closed: a payload with an empty [id], [card_id] or
    [currency] is answered not approved and never reaches the handler, so
    the store stays as it is; every other payload of the payload type is
    handed to the handler, whatever its amount. *)
Theorem the_route_rejects_empty_identifiers db payload tCreated tUpdated :
  webhookRoute db payload tCreated tUpdated
  = if String.eqb (Payload.id payload) ""
       || String.eqb (Payload.card_id payload) ""
       || String.eqb (Payload.currency payload) ""
    then (db, WebhookResponse.mk false)
    else handleTransactionWebhook db payload tCreated tUpdated.
Proof.
  unfold webhookRoute.
  pose proof (validateWebhookPayload_typed payload) as Hvalid.
  destruct (String.eqb_spec (Payload.id payload) "") as [Hi|Hi];
    destruct (String.eqb_spec (Payload.card_id payload) "") as [Hc|Hc];
    destruct (String.eqb_spec (Payload.currency payload) "") as [Hu|Hu];
    cbn [orb];
    destruct (validateWebhookPayload (payloadBody payload)) as [|e errors];
    try reflexivity;
    try (exfalso; destruct Hvalid as [Hto _];
         destruct (Hto eq_refl) as (? & ? & ?); contradiction).
  exfalso. destruct Hvalid as [_ Hfrom].
  discriminate Hfrom. repeat split; assumption.
Qed.


(** X18.  A card or an account taken out of service refuses what comes next: after
    an update of the card to a status other than active a new request on it
    is refused with [card_not_active]; after such an update of the account
    of an active card it is refused with [account_not_active]. *)
Theorem an_update_out_of_service_refuses_new_requests db payload card now :
  transactions db !! Payload.id payload = None ->
  cards db !! Payload.card_id payload = Some card ->
  (forall updates status,
     PartialCard.status updates = Some status ->
     status <> card_active ->
     processTransaction
       (cardsDb.update db (Payload.card_id payload) updates now).1 payload
     = ApprovalResult.mk false (Some card_not_active) None None)
  /\ (forall account updates status,
        Card.status card = card_active ->
        accounts db !! Card.accountId card = Some account ->
        PartialAccount.status updates = Some status ->
        status <> account_active ->
        processTransaction
          (accountsDb.update db (Card.accountId card) updates now).1 payload
        = ApprovalResult.mk false (Some account_not_active) None None).
Proof.
  intros Hnew Hcard. split.
  - intros updates status Hst Hne.
    unfold cardsDb.update. rewrite Hcard. cbn [fst].
    rewrite processTransaction_new by exact Hnew.
    cbn [cards set_cards]. rewrite lookup_insert_eq.
    cbn [Card.status]. rewrite Hst. cbn [default from_option id].
    destruct status; [congruence| |]; reflexivity.
  - intros account updates status Hactive Hacc Hst Hne.
    unfold accountsDb.update. rewrite Hacc. cbn [fst].
    rewrite processTransaction_new by exact Hnew.
    cbn [cards accounts set_accounts]. rewrite Hcard, Hactive.
    cbn [negb card_is_active]. rewrite lookup_insert_eq.
    cbn [Account.status]. rewrite Hst. cbn [default from_option id].
    destruct status; [congruence| |]; reflexivity.
Qed.


End RouteAndRules.

(* ===================================================================== *)
(** * The monthly run *)
(* ===================================================================== *)

Section MonthlyRun.

Variable addDays : Date -> Z -> Date.
Variable subtractOneMonth : Date -> Date.

Implicit Types (db : Store).





End MonthlyRun.

(* ===================================================================== *)
(** * The further theorems at concrete inputs *)
(* ===================================================================== *)

Section FurtherScenarios.

Import Scenario.

Lemma within_limits_db0 : within_limits db0.
Proof.
  intros key account Hlook. unfold db0 in Hlook. cbn [accounts] in Hlook.
  apply lookup_singleton_Some in Hlook. destruct Hlook as [_ <-].
  vm_compute. discriminate.
Qed.

Lemma records_consistent_db0 : records_consistent db0.
Proof.
  intros id tx Hlook. unfold db0 in Hlook. cbn [transactions] in Hlook.
  rewrite lookup_empty in Hlook. discriminate.
Qed.

(** [T2], refused for credit after [T1]. *)
Lemma refused_request_witness :
  transactions db1 !! Payload.id T2 = None
  /\ ApprovalResult.approved (processTransaction db1 T2) = false
  /\ (handleTransactionWebhook db1 T2 3000 3001).2 = WebhookResponse.mk false
  /\ accounts (handleTransactionWebhook db1 T2 3000 3001).1 = accounts db1.
Proof.
  assert (Hnew : transactions db1 !! Payload.id T2 = None)
    by (vm_compute; reflexivity).
  assert (Hno : ApprovalResult.approved (processTransaction db1 T2) = false)
    by (vm_compute; reflexivity).
  split; [exact Hnew|]. split; [exact Hno|].
  destruct (refused_request_is_recorded_and_costs_nothing db1 T2 3000 3001 Hnew Hno)
    as (Hresp & Hacc & _).
  split; [exact Hresp|exact Hacc].
Defined.

(** [T1], [T2] and [T1] again, from the initial store. *)
Lemma within_limits_witness :
  within_limits db0
  /\ within_limits
       (submitSequentially db0
          [mkCall T1 1000 1001; mkCall T2 2000 2001; mkCall T1 3000 3001]).1.
Proof.
  split; [exact within_limits_db0|].
  exact (sequential_submissions_stay_within_limits db0
           [mkCall T1 1000 1001; mkCall T2 2000 2001; mkCall T1 3000 3001]
           within_limits_db0).
Defined.

Lemma reasons_consistent_witness :
  records_consistent db0
  /\ records_consistent
       (submitSequentially db0
          [mkCall T1 1000 1001; mkCall T2 2000 2001; mkCall T1 3000 3001]).1.
Proof.
  split; [exact records_consistent_db0|].
  exact (sequential_submissions_keep_reasons_consistent db0
           [mkCall T1 1000 1001; mkCall T2 2000 2001; mkCall T1 3000 3001]
           records_consistent_db0).
Defined.

(** The closing balance of the statement scenario. *)
Lemma minimum_payment_bounds_witness :
  - 2 ^ 53 < 48000 < 2 ^ 53
  /\ 0 <= calculateMinimumPayment 48000 <= Z.max 0 48000
  /\ (0 < 48000 -> 48000 <= 50 * calculateMinimumPayment 48000)
  /\ (calculateMinimumPayment 48000 = Z.max 0 48000 <-> 48000 <= 2500).
Proof.
  assert (Hb : - 2 ^ 53 < 48000 < 2 ^ 53) by (split; reflexivity).
  split; [exact Hb|].
  exact (minimum_payment_is_between_two_percent_and_the_balance 48000 Hb).
Defined.

Lemma minimum_payment_monotone_witness :
  - 2 ^ 53 < 2499
  /\ 2499 <= 125001
  /\ 125001 < 2 ^ 53
  /\ calculateMinimumPayment 2499 <= calculateMinimumPayment 125001.
Proof.
  assert (Hlo : - 2 ^ 53 < 2499) by reflexivity.
  assert (Hle : 2499 <= 125001) by (vm_compute; discriminate).
  assert (Hhi : 125001 < 2 ^ 53) by reflexivity.
  repeat (split; [assumption|]).
  exact (minimum_payment_is_monotone 2499 125001 Hlo Hle Hhi).
Defined.









(** Card [C1] frozen, or account [A1] closed, before [T1] arrives. *)
Lemma out_of_service_witness :
  let frozen := PartialCard.mk None None (Some card_frozen) None None None in
  let closed := PartialAccount.mk None None None (Some account_closed) None None in
  transactions db0 !! Payload.id T1 = None
  /\ cards db0 !! Payload.card_id T1 = Some C1
  /\ processTransaction (cardsDb.update db0 "C1" frozen 5).1 T1
     = ApprovalResult.mk false (Some card_not_active) None None
  /\ processTransaction (accountsDb.update db0 "A1" closed 5).1 T1
     = ApprovalResult.mk false (Some account_not_active) None None.
Proof.
  cbv zeta.
  assert (Hnew : transactions db0 !! Payload.id T1 = None)
    by (vm_compute; reflexivity).
  assert (Hcard : cards db0 !! Payload.card_id T1 = Some C1)
    by (vm_compute; reflexivity).
  split; [exact Hnew|]. split; [exact Hcard|].
  destruct (an_update_out_of_service_refuses_new_requests db0 T1 C1 5 Hnew Hcard)
    as [Hc Ha].
  split.
  - apply (Hc (PartialCard.mk None None (Some card_frozen) None None None)
             card_frozen); [reflexivity|discriminate].
  - apply (Ha A1 (PartialAccount.mk None None None (Some account_closed) None None)
             account_closed);
      [reflexivity|vm_compute; reflexivity|reflexivity|discriminate].
Defined.

(** [T1] running alone for eight resumptions. *)
Lemma run_alone_witness :
  (8 <= 8)%nat
  /\ Interleaving.run_alone 8 (mkCall T1 1000 1001) db0 Interleaving.Start
     = (db1, Interleaving.Done (WebhookResponse.mk true)).
Proof.
  assert (Hfuel : (8 <= 8)%nat) by constructor.
  split; [exact Hfuel|].
  rewrite (run_alone_handle (mkCall T1 1000 1001) db0 8 Hfuel).
  vm_compute. reflexivity.
Defined.

(** 15000 on card [C2], whose limit is 10000. *)
Lemma card_limit_witness :
  let payload := request "T4" "C2" 15000 in
  transactions db0 !! Payload.id payload = None
  /\ cards db0 !! Payload.card_id payload = Some C2
  /\ Card.status C2 = card_active
  /\ accounts db0 !! Card.accountId C2 = Some A1
  /\ Account.status A1 = account_active
  /\ Float64.add (Account.currentBalance A1) (Payload.amount payload)
     <= Account.creditLimit A1
  /\ Card.spendingLimit C2 <> Some 0
  /\ processTransaction db0 payload
     = ApprovalResult.mk false (Some exceeds_card_limit) None None.
Proof.
  cbv zeta.
  assert (Hnew : transactions db0 !! Payload.id (request "T4" "C2" 15000) = None)
    by (vm_compute; reflexivity).
  assert (Hcard : cards db0 !! Payload.card_id (request "T4" "C2" 15000) = Some C2)
    by (vm_compute; reflexivity).
  assert (Hacc : accounts db0 !! Card.accountId C2 = Some A1)
    by (vm_compute; reflexivity).
  assert (Hroom : Float64.add (Account.currentBalance A1)
                    (Payload.amount (request "T4" "C2" 15000))
                  <= Account.creditLimit A1) by (vm_compute; discriminate).
  assert (Hnz : Card.spendingLimit C2 <> Some 0) by discriminate.
  repeat (split; [first [assumption | reflexivity]|]).
  destruct (card_limit_rule_on_other_limits db0 (request "T4" "C2" 15000) C2 A1
              Hnew Hcard eq_refl Hacc eq_refl Hroom Hnz) as [Hover _].
  apply (Hover 10000); reflexivity.
Defined.

End FurtherScenarios.
